(** * AIDA64 shared-memory sensors: acquisition, parsing and resolution

    A shallow embedding of [library/sensors/sensors_aida64.py].

    - Python [float] is IEEE-754 binary64; it is modelled with the
      Standard Library's [spec_float] at precision 53 and [emax] 1024.
    - A Python [str] is held as the bytes of its UTF-8 encoding;
      [float(str)] reads the decimal digits and the white space of every
      script, as CPython does.
    - The markup parser [xml.etree.ElementTree.fromstring] and the Windows
      file-mapping calls are library code: the model starts from what they
      hand back (an element tree, a parse error, or an OS error code).
    - Globals ([_sensor_cache], [_cache_valid]), the log and exceptions are
      threaded through a state-and-exception monad; a raised exception keeps
      the state reached so far, as in Python. *)

From Stdlib Require Import ZArith List String Ascii Bool Lia Permutation.
From Stdlib Require Import Floats.SpecFloat.
Import ListNotations.

Set Warnings "-register-all".

Local Open Scope Z_scope.
Local Open Scope string_scope.
Local Open Scope list_scope.

(* ===================================================================== *)
(** ** Python values: exceptions and floats                              *)
(* ===================================================================== *)

(** The exception classes that occur in the module.  [PlainException] is
    [raise Exception("...")] with its diagnosed cause; [OSError] is what
    [ctypes.WinError(code)] builds; [ParseError] is [ET.ParseError]. *)
Inductive cause := AccessDenied | NotFound.

Inductive exn :=
| ValueError
| KeyError
| TypeError
| AttributeError
| ZeroDivisionError
| OverflowError
| ParseError
| OSError (err_code : Z)
| PlainException (c : cause).

(** [except Exception] catches every class above; the narrower handlers of
    the module are given as lists of classes. *)
Inductive exn_class :=
| CValueError | CKeyError | CTypeError | CAttributeError.

Definition exn_in_class (e : exn) (c : exn_class) : bool :=
  match e, c with
  | ValueError, CValueError => true
  | KeyError, CKeyError => true
  | TypeError, CTypeError => true
  | AttributeError, CAttributeError => true
  | _, _ => false
  end.

Module PyFloat.

Definition prec : Z := 53.
Definition emax : Z := 1024.

Definition float := spec_float.

Definition nan : float := S754_nan.
Definition of_Z (z : Z) : float := binary_normalize prec emax z 0 false.

Definition isnan (x : float) : bool :=
  match x with S754_nan => true | _ => false end.

Definition is_zero (x : float) : bool :=
  match x with S754_zero _ => true | _ => false end.

Definition add : float -> float -> float := SFadd prec emax.
Definition mul : float -> float -> float := SFmul prec emax.
Definition ltb : float -> float -> bool := SFltb.

(** [x / y] raises [ZeroDivisionError] when [y] is a zero of either sign. *)
Definition div (x y : float) : exn + float :=
  if is_zero y then inl ZeroDivisionError else inr (SFdiv prec emax x y).

(** [int(x)]: truncation toward zero; [OverflowError] on an infinity and
    [ValueError] on NaN. *)
Definition to_int (x : float) : exn + Z :=
  match x with
  | S754_nan => inl ValueError
  | S754_infinity _ => inl OverflowError
  | S754_zero _ => inr 0
  | S754_finite s m e =>
      let a := match e with
               | Zneg p => Z.shiftr (Zpos m) (Zpos p)
               | _ => Z.shiftl (Zpos m) e
               end in
      inr (cond_Zopp s a)
  end.

(** [min(a, b)] keeps [a] unless [b < a]; [max] over a non-empty list
    keeps the running maximum unless the next item is greater.  With a
    NaN in the list the result depends on the order, as in Python. *)
Definition min2 (a b : float) : float := if ltb b a then b else a.

Definition max_list (x : float) (xs : list float) : float :=
  fold_left (fun m y => if ltb m y then y else m) xs x.

(** *** Text

    A Python [str] is held as the bytes of its UTF-8 encoding.
    [code_points] reads the code points back; bytes that are not the
    encoding of a [str] (a stray continuation byte, an overlong form, a
    surrogate) read as U+FFFD. *)

Definition continuation (b : N) : bool := (N.leb 128 b && N.ltb b 192)%bool.

Definition replacement : N := 65533.

Fixpoint code_points (s : list ascii) : list N :=
  match s with
  | [] => []
  | c0 :: r0 =>
      let b0 := N_of_ascii c0 in
      if N.ltb b0 128 then b0 :: code_points r0
      else if (N.leb 192 b0 && N.ltb b0 224)%bool then
        match r0 with
        | c1 :: r1 =>
            let b1 := N_of_ascii c1 in
            let cp := ((b0 - 192) * 64 + (b1 - 128))%N in
            if (continuation b1 && N.leb 128 cp)%bool
            then cp :: code_points r1
            else replacement :: code_points r0
        | _ => replacement :: code_points r0
        end
      else if (N.leb 224 b0 && N.ltb b0 240)%bool then
        match r0 with
        | c1 :: c2 :: r2 =>
            let b1 := N_of_ascii c1 in
            let b2 := N_of_ascii c2 in
            let cp := ((b0 - 224) * 4096 + (b1 - 128) * 64 + (b2 - 128))%N in
            if (continuation b1 && continuation b2 && N.leb 2048 cp
                && negb (N.leb 55296 cp && N.leb cp 57343))%bool
            then cp :: code_points r2
            else replacement :: code_points r0
        | _ => replacement :: code_points r0
        end
      else if (N.leb 240 b0 && N.ltb b0 248)%bool then
        match r0 with
        | c1 :: c2 :: c3 :: r3 =>
            let b1 := N_of_ascii c1 in
            let b2 := N_of_ascii c2 in
            let b3 := N_of_ascii c3 in
            let cp := ((b0 - 240) * 262144 + (b1 - 128) * 4096
                       + (b2 - 128) * 64 + (b3 - 128))%N in
            if (continuation b1 && continuation b2 && continuation b3
                && N.leb 65536 cp && N.leb cp 1114111)%bool
            then cp :: code_points r3
            else replacement :: code_points r0
        | _ => replacement :: code_points r0
        end
      else replacement :: code_points r0
  end.

(** The white space beyond ASCII ([str.isspace]), and the code points of
    the digit zero of every script with decimal digits (Unicode 14.0, the
    table of Python 3.11); the ten digits of a script follow each other. *)
Definition unicode_spaces : list N :=
  [133; 160; 5760; 8192; 8193; 8194; 8195; 8196; 8197; 8198; 8199; 8200;
   8201; 8202; 8232; 8233; 8239; 8287; 12288]%N.

Definition decimal_zeros : list N :=
  [48; 1632; 1776; 1984; 2406; 2534; 2662; 2790; 2918; 3046; 3174; 3302;
   3430; 3558; 3664; 3792; 3872; 4160; 4240; 6112; 6160; 6470; 6608; 6784;
   6800; 6992; 7088; 7232; 7248; 42528; 43216; 43264; 43472; 43504; 43600;
   44016; 65296; 66720; 68912; 69734; 69872; 69942; 70096; 70384; 70736;
   70864; 71248; 71360; 71472; 71904; 72016; 72784; 73040; 73120; 92768;
   92864; 93008; 120782; 120792; 120802; 120812; 120822; 123200; 123632;
   125264; 130032]%N.

Definition is_unicode_space (c : N) : bool := existsb (N.eqb c) unicode_spaces.

Definition to_decimal (c : N) : option N :=
  match List.find (fun z => (N.leb z c && N.ltb c (z + 10))%bool) decimal_zeros with
  | Some z => Some (c - z)%N
  | None => None
  end.

(** What [float] does to a [str] that is not ASCII before it reads it: a
    code point below 127 stays; white space becomes a blank; a decimal
    digit of any script becomes the ASCII digit; at the first other code
    point the text is cut and ends in [?]. *)
Fixpoint transform (cps : list N) : list ascii :=
  match cps with
  | [] => []
  | c :: r =>
      if N.ltb c 127 then ascii_of_N c :: transform r
      else if is_unicode_space c then " "%char :: transform r
      else match to_decimal c with
           | Some d => ascii_of_N (48 + d) :: transform r
           | None => ["?"%char]
           end
  end.

Definition to_ascii (s : list ascii) : list ascii :=
  if forallb (fun c => N.ltb (N_of_ascii c) 128) s then s
  else transform (code_points s).

(** *** [float(str)]

    The text is brought to ASCII as above.  Surrounding ASCII white space
    is removed; then an optional sign followed by [inf], [infinity] or
    [nan] in any letter case, or by a decimal number
    [digits[.digits][(e|E)[sign]digits]] where single underscores may
    separate digits.  The decimal value is rounded to the nearest
    binary64, ties to even. *)
Definition is_space (c : ascii) : bool :=
  let n := N_of_ascii c in
  (N.eqb n 32 || (N.leb 9 n && N.leb n 13))%bool.

Fixpoint lstrip (s : list ascii) : list ascii :=
  match s with
  | c :: r => if is_space c then lstrip r else s
  | [] => []
  end.

Definition strip (s : list ascii) : list ascii :=
  rev (lstrip (rev (lstrip s))).

Definition digit_val (c : ascii) : option Z :=
  let n := N_of_ascii c in
  if (N.leb 48 n && N.leb n 57)%bool then Some (Z.of_N n - 48) else None.

Definition lower (c : ascii) : ascii :=
  let n := N_of_ascii c in
  if (N.leb 65 n && N.leb n 90)%bool then ascii_of_N (n + 32) else c.

(** [digitpart]: reads [digit (["_"] digit)*] from the front of [s];
    returns the digits read (as a number and a count) and the rest.
    [acc]/[cnt] carry the digits read so far; [after_digit] tells whether
    the previous character was a digit, which is when [_] may follow. *)
Fixpoint digitpart_aux (s : list ascii) (acc : Z) (cnt : Z) (after_digit : bool)
  : option (Z * Z * list ascii) :=
  match s with
  | [] => if after_digit then Some (acc, cnt, []) else None
  | c :: r =>
      match digit_val c with
      | Some d => digitpart_aux r (10 * acc + d) (cnt + 1) true
      | None =>
          if (after_digit && Ascii.eqb c "_")%bool then
            match r with
            | c' :: _ =>
                match digit_val c' with
                | Some _ => digitpart_aux r acc cnt false
                | None => None
                end
            | [] => None
            end
          else if after_digit then Some (acc, cnt, s) else None
      end
  end.

Definition digitpart (s : list ascii) := digitpart_aux s 0 0 false.

Definition starts_with_digit (s : list ascii) : bool :=
  match s with
  | c :: _ => match digit_val c with Some _ => true | None => false end
  | [] => false
  end.

Definition read_sign (s : list ascii) : bool * list ascii :=
  match s with
  | "-"%char :: r => (true, r)
  | "+"%char :: r => (false, r)
  | _ => (false, s)
  end.

(** [number]: [[digitpart] "." digitpart | digitpart ["."]]; the result is
    the integer made of all digits, the number of digits after the point,
    and the rest of the text. *)
Definition number (s : list ascii) : option (Z * Z * list ascii) :=
  if starts_with_digit s then
    match digitpart s with
    | Some (ip, _, "."%char :: r) =>
        if starts_with_digit r then
          match digitpart r with
          | Some (fp, nf, r') => Some (ip * 10 ^ nf + fp, nf, r')
          | None => None
          end
        else Some (ip, 0, r)
    | Some (ip, _, r) => Some (ip, 0, r)
    | None => None
    end
  else
    match s with
    | "."%char :: r =>
        match digitpart r with
        | Some (fp, nf, r') => Some (fp, nf, r')
        | None => None
        end
    | _ => None
    end.

Definition exponent (s : list ascii) : option Z :=
  match s with
  | [] => Some 0
  | c :: r =>
      if Ascii.eqb (lower c) "e" then
        let (neg, r1) := read_sign r in
        match digitpart r1 with
        | Some (e, _, []) => Some (if neg then - e else e)
        | _ => None
        end
      else None
  end.

(** The binary64 nearest to [(-1)^s * m * 10^e]. *)
Definition of_decimal (s : bool) (m : Z) (e : Z) : float :=
  match m with
  | Zpos p =>
      match e with
      | Zneg q =>
          SFdiv prec emax (S754_finite s p 0)
                (S754_finite false (Z.to_pos (10 ^ Zpos q)) 0)
      | _ => binary_normalize prec emax (cond_Zopp s (m * 10 ^ e)) 0 s
      end
  | _ => S754_zero s
  end.

Definition of_ascii_chars (s : list ascii) : option float :=
  let (neg, body) := read_sign (strip s) in
  let low := string_of_list_ascii (map lower body) in
  if String.eqb low "inf" || String.eqb low "infinity" then
    Some (S754_infinity neg)
  else if String.eqb low "nan" then Some S754_nan
  else
    match number body with
    | Some (m, nf, r) =>
        match exponent r with
        | Some e => Some (of_decimal neg m (e - nf))
        | None => None
        end
    | None => None
    end.

Definition of_chars (s : list ascii) : option float :=
  of_ascii_chars (to_ascii s).

(** [float(x)] for [x] the [.text] of an element: [None] is not a number
    or a string ([TypeError]); unparsable text is a [ValueError]. *)
Definition of_text (x : option string) : exn + float :=
  match x with
  | None => inl TypeError
  | Some s =>
      match of_chars (list_ascii_of_string s) with
      | Some f => inr f
      | None => inl ValueError
      end
  end.

End PyFloat.

(* ===================================================================== *)
(** ** Python containers and strings                                     *)
(* ===================================================================== *)

(** A [dict]: keys in insertion order, no key twice.  Assigning to a key
    that is present replaces its value in place; a new key goes last. *)
Module PyDict.
Section Dict.
Context {K V : Type}.
Variable eqb : K -> K -> bool.

Definition dict := list (K * V).

Fixpoint get (k : K) (d : dict) : option V :=
  match d with
  | [] => None
  | (k', v) :: r => if eqb k k' then Some v else get k r
  end.

Definition mem (k : K) (d : dict) : bool :=
  match get k d with Some _ => true | None => false end.

Fixpoint set (k : K) (v : V) (d : dict) : dict :=
  match d with
  | [] => [(k, v)]
  | (k', v') :: r => if eqb k k' then (k', v) :: r else (k', v') :: set k v r
  end.

Definition keys (d : dict) : list K := map fst d.
End Dict.
End PyDict.

(** [sub in s] for strings. *)
Fixpoint contains (sub s : string) : bool :=
  if String.prefix sub s then true
  else match s with
       | EmptyString => false
       | String _ r => contains sub r
       end.

(** [s.startswith(p)]. *)
Definition startswith (s p : string) : bool := String.prefix p s.

(** [str(x)] for the [.text] of an element. *)
Definition py_str (x : option string) : string :=
  match x with Some s => s | None => "None" end.

(* ===================================================================== *)
(** ** Element trees                                                     *)
(* ===================================================================== *)

(** What [ET.fromstring] builds, as far as the module looks at it: a tag,
    the text before the first child ([None] when there is none, so
    [<id></id>] and [<id/>] have text [None]) and the child elements in
    document order. *)
Inductive Element :=
| Elem (tag : string) (text : option string) (children : list Element).

Definition tag (e : Element) : string := let (t, _, _) := e in t.
Definition text (e : Element) : option string := let (_, x, _) := e in x.
Definition children (e : Element) : list Element := let (_, _, c) := e in c.

(** [e.find(t)]: the first child with tag [t]; [e.findall(t)]: all of them
    in document order. *)
Definition find (t : string) (e : Element) : option Element :=
  List.find (fun c => String.eqb (tag c) t) (children e).

Definition findall (t : string) (e : Element) : list Element :=
  List.filter (fun c => String.eqb (tag c) t) (children e).

(* ===================================================================== *)
(** ** The sensor table                                                  *)
(* ===================================================================== *)

(** The inner dict [{'type': ..., 'label': ..., 'value': ...}]. *)
Record SensorRecord := {
  type : string;
  label : option string;
  value : option string
}.

(** Keys are [id_elem.text]: a string, or [None] for an empty [id]. *)
Definition key := option string.

Definition key_eqb (a b : key) : bool :=
  match a, b with
  | Some x, Some y => String.eqb x y
  | None, None => true
  | _, _ => false
  end.

Definition key_dec (a b : key) : {a = b} + {a <> b}.
Proof. unfold key. decide equality. apply string_dec. Defined.

Definition table := @PyDict.dict key SensorRecord.

Definition tget : key -> table -> option SensorRecord := PyDict.get key_eqb.
Definition tmem : key -> table -> bool := PyDict.mem key_eqb.
Definition tset : key -> SensorRecord -> table -> table := PyDict.set key_eqb.

(** One pass of a parsing loop for the elements named [ty]: an element
    with [id], [label] and [value] children is stored under the text of its
    [id]; any other element is passed over. *)
Definition record_of (ty : string) (e : Element) : option (key * SensorRecord) :=
  match find "id" e, find "label" e, find "value" e with
  | Some id_elem, Some label_elem, Some value_elem =>
      Some (text id_elem,
            {| type := ty; label := text label_elem; value := text value_elem |})
  | _, _, _ => None
  end.

Definition store (sensors_data : table) (kr : key * SensorRecord) : table :=
  tset (fst kr) (snd kr) sensors_data.

Definition parse_elems (ty : string) (root : Element) (sensors_data : table) : table :=
  fold_left
    (fun d e => match record_of ty e with
                | Some kr => store d kr
                | None => d
                end)
    (findall ty root) sensors_data.

(** The five loops, in the order of the source. *)
Definition parse (root : Element) : table :=
  parse_elems "pwr" root
    (parse_elems "volt" root
       (parse_elems "fan" root
          (parse_elems "temp" root
             (parse_elems "sys" root [])))).

(* ===================================================================== *)
(** ** The world: shared memory, globals, log                            *)
(* ===================================================================== *)

(** What one open/map/parse attempt meets.  [OpenFails c]: the handle
    passes the invalid-handle test of the source and [get_last_error()] is
    [c].  [MapFails c]: the view is null and the last error is [c].
    [Mapped doc]: the payload was read, decoded and wrapped in [<AIDA64>];
    [doc] is what [ET.fromstring] made of it, [None] for a [ParseError].
    The view and the handle are released on every path ([finally]); that
    leaves no trace in what follows. *)
Inductive Acquisition :=
| OpenFails (err_code : Z)
| MapFails (err_code : Z)
| Mapped (doc : option Element).

(** What [psutil] answers; [None] where the call raises. *)
Record Psutil := {
  getloadavg : option (PyFloat.float * PyFloat.float * PyFloat.float);
  disk_usage : option (PyFloat.float * Z * Z);
  net_io_counters : option (list (string * (Z * Z)))
}.

(** [shm n] is what the [n]-th acquisition of the process meets; [clock]
    counts the acquisitions done. *)
Record World := {
  shm : nat -> Acquisition;
  psutil : Psutil;
  clock : nat;
  _sensor_cache : table;
  _cache_valid : bool;
  log : list exn
}.

Inductive outcome (A : Type) :=
| Ret (a : A)
| Raise (e : exn).
Arguments Ret {A} a.
Arguments Raise {A} e.

Definition M (A : Type) : Type := World -> outcome A * World.

Definition ret {A} (a : A) : M A := fun w => (Ret a, w).
Definition raise {A} (e : exn) : M A := fun w => (Raise e, w).

Definition bind {A B} (m : M A) (f : A -> M B) : M B :=
  fun w => match m w with
           | (Ret a, w') => f a w'
           | (Raise e, w') => (Raise e, w')
           end.

Definition lift {A} (r : exn + A) : M A :=
  match r with inl e => raise e | inr a => ret a end.

(** [try: m  except (classes): handler]. *)
Definition try_except {A} (m : M A) (classes : list exn_class) (handler : M A) : M A :=
  fun w => match m w with
           | (Raise e, w') =>
               if existsb (exn_in_class e) classes then handler w'
               else (Raise e, w')
           | r => r
           end.

(** [try: m  except Exception as e: handler e], also the bare [except:]. *)
Definition try_except_all {A} (m : M A) (handler : exn -> M A) : M A :=
  fun w => match m w with
           | (Raise e, w') => handler e w'
           | r => r
           end.

Declare Scope py_scope.
Delimit Scope py_scope with py.
Notation "x <- m ;; k" := (bind m (fun x => k))
  (at level 61, m at next level, right associativity) : py_scope.
Notation "m ;;; k" := (bind m (fun _ => k))
  (at level 61, right associativity) : py_scope.
Local Open Scope py_scope.

Definition set_cache (t : table) : M unit :=
  fun w => (Ret tt, {| shm := shm w; psutil := psutil w; clock := clock w;
                       _sensor_cache := t; _cache_valid := _cache_valid w;
                       log := log w |}).

Definition set_valid (b : bool) : M unit :=
  fun w => (Ret tt, {| shm := shm w; psutil := psutil w; clock := clock w;
                       _sensor_cache := _sensor_cache w; _cache_valid := b;
                       log := log w |}).

Definition logger_error (e : exn) : M unit :=
  fun w => (Ret tt, {| shm := shm w; psutil := psutil w; clock := clock w;
                       _sensor_cache := _sensor_cache w;
                       _cache_valid := _cache_valid w;
                       log := log w ++ [e] |}).

(** The next acquisition: the clock advances whatever happens. *)
Definition next_acquisition : M Acquisition :=
  fun w => (Ret (shm w (clock w)),
            {| shm := shm w; psutil := psutil w; clock := S (clock w);
               _sensor_cache := _sensor_cache w;
               _cache_valid := _cache_valid w; log := log w |}).

(* ===================================================================== *)
(** ** [read_aida64_shared_memory]                                       *)
(* ===================================================================== *)

(** The statements of the outer [try] up to [ET.fromstring]. *)
Definition open_map_parse : M Element :=
  a <- next_acquisition ;;
  match a with
  | OpenFails err_code =>
      if (err_code =? 5)%Z then raise (PlainException AccessDenied)
      else if (err_code =? 2)%Z then raise (PlainException NotFound)
      else raise (OSError err_code)
  | MapFails err_code => raise (OSError err_code)
  | Mapped None => raise ParseError
  | Mapped (Some root) => ret root
  end.

Definition read_aida64_shared_memory : M table :=
  try_except_all
    (root <- open_map_parse ;;
     let sensors_data := parse root in
     set_cache sensors_data ;;;
     set_valid true ;;;
     ret sensors_data)
    (fun e =>
       logger_error e ;;;
       set_valid false ;;;
       ret []).

(** [dict[k]] raises [KeyError] on a missing key. *)
Definition getitem (k : key) (d : table) : exn + SensorRecord :=
  match tget k d with Some r => inr r | None => inl KeyError end.

Definition math_nan : PyFloat.float := PyFloat.nan.

(** A [return] inside the [try] is the [Some] of the guarded block. *)
Definition get_sensor_value (sensor_id : string) (default_value : PyFloat.float)
  : M PyFloat.float :=
  r <- try_except
         (data <- read_aida64_shared_memory ;;
          if tmem (Some sensor_id) data then
            rec <- lift (getitem (Some sensor_id) data) ;;
            f <- lift (PyFloat.of_text (value rec)) ;;
            ret (Some f)
          else ret None)
         [CValueError; CKeyError; CTypeError]
         (ret None) ;;
  match r with
  | Some f => ret f
  | None => ret default_value
  end.

Definition get_sensor_string (sensor_id : string) (default_value : string)
  : M string :=
  r <- try_except
         (data <- read_aida64_shared_memory ;;
          if tmem (Some sensor_id) data then
            rec <- lift (getitem (Some sensor_id) data) ;;
            ret (Some (py_str (value rec)))
          else ret None)
         [CKeyError; CTypeError]
         (ret None) ;;
  match r with
  | Some s => ret s
  | None => ret default_value
  end.

(* ===================================================================== *)
(** ** The category facades                                              *)
(* ===================================================================== *)

Definition f100 : PyFloat.float := PyFloat.of_Z 100.
Definition f1024 : PyFloat.float := PyFloat.of_Z 1024.

(** [k.startswith(p)] on a table key: [None] has no such method. *)
Definition key_startswith (k : key) (p : string) : exn + bool :=
  match k with
  | Some s => inr (startswith s p)
  | None => inl AttributeError
  end.

(** [sub in l] for a label: [None] is not iterable. *)
Definition in_label (sub : string) (l : option string) : exn + bool :=
  match l with
  | Some s => inr (contains sub s)
  | None => inl TypeError
  end.

(** The loop of [Cpu.frequency] over [data.items()], [frequencies] being
    the list built so far. *)
Fixpoint core_clocks (items : list (key * SensorRecord))
  (frequencies : list PyFloat.float) : exn + list PyFloat.float :=
  match items with
  | [] => inr frequencies
  | (sensor_id, sensor_data) :: rest =>
      match key_startswith sensor_id "SCC-" with
      | inl e => inl e
      | inr false => core_clocks rest frequencies
      | inr true =>
          match in_label "Clock" (label sensor_data) with
          | inl e => inl e
          | inr false => core_clocks rest frequencies
          | inr true =>
              match PyFloat.of_text (value sensor_data) with
              | inr freq => core_clocks rest (frequencies ++ [freq])
              | inl ValueError | inl TypeError => core_clocks rest frequencies
              | inl e => inl e
              end
          end
      end
  end.

Module Cpu.

Definition percentage (interval : PyFloat.float) : M PyFloat.float :=
  get_sensor_value "SCPUUTI" math_nan.

Definition frequency : M PyFloat.float :=
  cpu_clock <- get_sensor_value "SCPUCLK" math_nan ;;
  if negb (PyFloat.isnan cpu_clock) then ret cpu_clock
  else
    data <- read_aida64_shared_memory ;;
    frequencies <- lift (core_clocks data []) ;;
    match frequencies with
    | x :: xs => ret (PyFloat.max_list x xs)
    | [] => ret math_nan
    end.

Definition psutil_getloadavg : M (PyFloat.float * PyFloat.float * PyFloat.float) :=
  fun w => match getloadavg (psutil w) with
           | Some t => (Ret t, w)
           | None => (Raise AttributeError, w)
           end.

Definition load : M (PyFloat.float * PyFloat.float * PyFloat.float) :=
  try_except psutil_getloadavg [CAttributeError]
    (cpu_percent <- get_sensor_value "SCPUUTI" math_nan ;;
     if negb (PyFloat.isnan cpu_percent) then
       load_val <- lift (PyFloat.div cpu_percent f100) ;;
       ret (load_val, load_val, load_val)
     else ret (math_nan, math_nan, math_nan)).

Definition temperature : M PyFloat.float :=
  temp <- get_sensor_value "TCPUPKG" math_nan ;;
  if negb (PyFloat.isnan temp) then ret temp
  else
    temp <- get_sensor_value "TCPUIAC" math_nan ;;
    if negb (PyFloat.isnan temp) then ret temp
    else get_sensor_value "TCPU" math_nan.

Definition fan_percent (fan_name : option string) : M PyFloat.float :=
  fan_rpm <- get_sensor_value "FCPU" math_nan ;;
  if negb (PyFloat.isnan fan_rpm) then
    q <- lift (PyFloat.div fan_rpm (PyFloat.of_Z 2000)) ;;
    ret (PyFloat.min2 f100 (PyFloat.mul q f100))
  else ret math_nan.

Definition voltage : M PyFloat.float := get_sensor_value "VCPU" math_nan.

Definition power : M PyFloat.float := get_sensor_value "PCPUPKG" math_nan.

End Cpu.

Module Gpu.

Definition stats
  : M (PyFloat.float * PyFloat.float * PyFloat.float * PyFloat.float * PyFloat.float) :=
  let load := math_nan in
  temp <- get_sensor_value "TGPU1" math_nan ;;
  used_mem <- get_sensor_value "SUSEDVMEM" math_nan ;;
  free_mem <- get_sensor_value "SFREEVMEM" math_nan ;;
  if (negb (PyFloat.isnan used_mem) && negb (PyFloat.isnan free_mem))%bool then
    let total_mem := PyFloat.add used_mem free_mem in
    q <- lift (PyFloat.div used_mem total_mem) ;;
    let used_percent := PyFloat.mul q f100 in
    ret (load, used_percent, used_mem, total_mem, temp)
  else ret (load, math_nan, used_mem, math_nan, temp).

Definition fps : M Z := ret (-1).

Definition fan_percent : M PyFloat.float :=
  fan_rpm <- get_sensor_value "FGPU1" math_nan ;;
  if negb (PyFloat.isnan fan_rpm) then
    q <- lift (PyFloat.div fan_rpm (PyFloat.of_Z 3000)) ;;
    ret (PyFloat.min2 f100 (PyFloat.mul q f100))
  else ret math_nan.

Definition frequency : M PyFloat.float := ret math_nan.

Definition voltage : M PyFloat.float := get_sensor_value "VGPU1" math_nan.

Definition power : M PyFloat.float := get_sensor_value "PGPU1" math_nan.

Definition is_available : M bool :=
  temp <- get_sensor_value "TGPU1" math_nan ;;
  ret (negb (PyFloat.isnan temp)).

End Gpu.

Module Memory.

Definition swap_percent : M PyFloat.float := get_sensor_value "SVIRTMEMUTI" math_nan.

Definition virtual_percent : M PyFloat.float := get_sensor_value "SMEMUTI" math_nan.

Definition virtual_used : M Z :=
  used_mb <- get_sensor_value "SUSEDMEM" math_nan ;;
  if negb (PyFloat.isnan used_mb) then
    lift (PyFloat.to_int (PyFloat.mul (PyFloat.mul used_mb f1024) f1024))
  else ret 0.

Definition virtual_free : M Z :=
  free_mb <- get_sensor_value "SFREEMEM" math_nan ;;
  if negb (PyFloat.isnan free_mb) then
    lift (PyFloat.to_int (PyFloat.mul (PyFloat.mul free_mb f1024) f1024))
  else ret 0.

End Memory.

(** [psutil.disk_usage('/')]: percent, used and free. *)
Definition psutil_disk_usage : M (PyFloat.float * Z * Z) :=
  fun w => match disk_usage (psutil w) with
           | Some u => (Ret u, w)
           | None => (Raise (OSError 0), w)
           end.

Module Disk.

Definition disk_usage_percent : M PyFloat.float :=
  try_except_all (u <- psutil_disk_usage ;; ret (fst (fst u)))
    (fun _ => ret math_nan).

Definition disk_used : M Z :=
  try_except_all (u <- psutil_disk_usage ;; ret (snd (fst u)))
    (fun _ => ret 0).

Definition disk_free : M Z :=
  try_except_all (u <- psutil_disk_usage ;; ret (snd u))
    (fun _ => ret 0).

End Disk.

(** [psutil.net_io_counters(pernic=True)]: per interface, bytes sent and
    bytes received. *)
Definition psutil_net_io_counters : M (list (string * (Z * Z))) :=
  fun w => match net_io_counters (psutil w) with
           | Some c => (Ret c, w)
           | None => (Raise (OSError 0), w)
           end.

Module Net.

Definition stats (if_name : string) (interval : PyFloat.float) : M (Z * Z * Z * Z) :=
  try_except_all
    (net_io <- psutil_net_io_counters ;;
     match PyDict.get String.eqb if_name net_io with
     | Some st => ret (0, fst st, 0, snd st)
     | None => ret (0, 0, 0, 0)
     end)
    (fun _ => ret (0, 0, 0, 0)).

End Net.

(* ===================================================================== *)
(** ** Worlds and payloads used in the statements                        *)
(* ===================================================================== *)

(** [<ty><id>i</id><label>l</label><value>v</value></ty>]; an empty string
    stands for an empty element, whose text is [None]. *)
Definition txt (s : string) : option string :=
  match s with EmptyString => None | _ => Some s end.

Definition sensor (ty i l v : string) : Element :=
  Elem ty None [Elem "id" (txt i) []; Elem "label" (txt l) []; Elem "value" (txt v) []].

(** The tree of a payload whose sibling elements are [elems]. *)
Definition aida64 (elems : list Element) : Element := Elem "AIDA64" None elems.

(** The [str] whose UTF-8 encoding is the bytes [l]. *)
Definition utf8 (l : list nat) : string :=
  string_of_list_ascii (map ascii_of_nat l).

(** Numerals beyond ASCII: 12 in fullwidth digits, 1024 between two
    no-break spaces, 3.5 in Arabic-Indic digits, and a fullwidth 1 followed
    by [e999]. *)
Definition fullwidth_12 : string := utf8 [239; 188; 145; 239; 188; 146]%nat.
Definition nbsp_1024 : string := utf8 [194; 160; 49; 48; 50; 52; 194; 160]%nat.
Definition arabic_3_5 : string := utf8 [217; 163; 46; 217; 165]%nat.
Definition fullwidth_1e999 : string := utf8 [239; 188; 145; 101; 57; 57; 57]%nat.

Definition no_psutil : Psutil :=
  {| getloadavg := None; disk_usage := None; net_io_counters := None |}.

(** A freshly loaded module ([_sensor_cache = {}], [_cache_valid = False])
    in front of a shared memory that answers [a] at every acquisition. *)
Definition fresh (a : Acquisition) : World :=
  {| shm := fun _ => a; psutil := no_psutil; clock := 0%nat;
     _sensor_cache := []; _cache_valid := false; log := [] |}.

Definition payload (elems : list Element) : World :=
  fresh (Mapped (Some (aida64 elems))).

(** The value a call hands back, the final world dropped. *)
Definition result {A} (m : M A) (w : World) : outcome A := fst (m w).

(* ===================================================================== *)
(** ** Records of a payload, in document order and in visiting order     *)
(* ===================================================================== *)

Definition categories : list string := ["sys"; "temp"; "fan"; "volt"; "pwr"].

Definition is_category (t : string) : bool := existsb (String.eqb t) categories.

Definition opt_list {A} (o : option A) : list A :=
  match o with Some a => [a] | None => [] end.

(** A child of the root is a valid record when it is one of the five
    category elements and has the three fields; it is malformed when it is
    a category element that lacks one of them. *)
Definition doc_record (e : Element) : option (key * SensorRecord) :=
  if is_category (tag e) then record_of (tag e) e else None.

Definition is_valid (e : Element) : bool :=
  match doc_record e with Some _ => true | None => false end.

Definition is_malformed (e : Element) : bool :=
  (is_category (tag e) && negb (is_valid e))%bool.

(** The valid records of the payload in document order. *)
Definition valid_records (root : Element) : list (key * SensorRecord) :=
  flat_map (fun e => opt_list (doc_record e)) (children root).

(** The valid records of one category in document order, and all of them
    in the order the five loops meet them. *)
Definition category_records (ty : string) (root : Element) : list (key * SensorRecord) :=
  flat_map (fun e => opt_list (record_of ty e)) (findall ty root).

Definition visited (root : Element) : list (key * SensorRecord) :=
  flat_map (fun ty => category_records ty root) categories.

(** The record that comes last in [l] among those with id [k]. *)
Definition last_with (k : key) (l : list (key * SensorRecord)) : option SensorRecord :=
  PyDict.get key_eqb k (rev l).

Definition has_type (ty : string) (kr : key * SensorRecord) : bool :=
  String.eqb (type (snd kr)) ty.

Definition has_key (k : key) (kr : key * SensorRecord) : bool :=
  key_eqb k (fst kr).

(** What an acquisition hands to the caller of [read_aida64_shared_memory]. *)
Definition acquisition_fails (a : Acquisition) : bool :=
  match a with
  | Mapped (Some _) => false
  | _ => true
  end.

Definition table_of (a : Acquisition) : table :=
  match a with
  | Mapped (Some root) => parse root
  | _ => []
  end.

(** The payload does not change: every acquisition meets [a]. *)
Definition unchanged (a : Acquisition) (w : World) : Prop :=
  forall n, shm w n = a.

(** The queries of the module, each with the shape of its answer, and the
    function that answers it. *)
Definition triple := (PyFloat.float * PyFloat.float * PyFloat.float)%type.
Definition gpu_tuple :=
  (PyFloat.float * PyFloat.float * PyFloat.float * PyFloat.float * PyFloat.float)%type.

Inductive query : Type -> Type :=
| q_get_sensor_value (sensor_id : string) (default_value : PyFloat.float)
  : query PyFloat.float
| q_get_sensor_string (sensor_id : string) (default_value : string) : query string
| q_cpu_percentage (interval : PyFloat.float) : query PyFloat.float
| q_cpu_frequency : query PyFloat.float
| q_cpu_load : query triple
| q_cpu_temperature : query PyFloat.float
| q_cpu_fan_percent (fan_name : option string) : query PyFloat.float
| q_cpu_voltage : query PyFloat.float
| q_cpu_power : query PyFloat.float
| q_gpu_stats : query gpu_tuple
| q_gpu_fps : query Z
| q_gpu_fan_percent : query PyFloat.float
| q_gpu_frequency : query PyFloat.float
| q_gpu_voltage : query PyFloat.float
| q_gpu_power : query PyFloat.float
| q_gpu_is_available : query bool
| q_memory_swap_percent : query PyFloat.float
| q_memory_virtual_percent : query PyFloat.float
| q_memory_virtual_used : query Z
| q_memory_virtual_free : query Z
| q_disk_usage_percent : query PyFloat.float
| q_disk_used : query Z
| q_disk_free : query Z
| q_net_stats (if_name : string) (interval : PyFloat.float) : query (Z * Z * Z * Z).

Definition resolve {A} (q : query A) : M A :=
  match q in query T return M T with
  | q_get_sensor_value sensor_id default_value => get_sensor_value sensor_id default_value
  | q_get_sensor_string sensor_id default_value => get_sensor_string sensor_id default_value
  | q_cpu_percentage interval => Cpu.percentage interval
  | q_cpu_frequency => Cpu.frequency
  | q_cpu_load => Cpu.load
  | q_cpu_temperature => Cpu.temperature
  | q_cpu_fan_percent fan_name => Cpu.fan_percent fan_name
  | q_cpu_voltage => Cpu.voltage
  | q_cpu_power => Cpu.power
  | q_gpu_stats => Gpu.stats
  | q_gpu_fps => Gpu.fps
  | q_gpu_fan_percent => Gpu.fan_percent
  | q_gpu_frequency => Gpu.frequency
  | q_gpu_voltage => Gpu.voltage
  | q_gpu_power => Gpu.power
  | q_gpu_is_available => Gpu.is_available
  | q_memory_swap_percent => Memory.swap_percent
  | q_memory_virtual_percent => Memory.virtual_percent
  | q_memory_virtual_used => Memory.virtual_used
  | q_memory_virtual_free => Memory.virtual_free
  | q_disk_usage_percent => Disk.disk_usage_percent
  | q_disk_used => Disk.disk_used
  | q_disk_free => Disk.disk_free
  | q_net_stats if_name interval => Net.stats if_name interval
  end.

(** The exception a failing acquisition raises inside the cycle. *)
Definition failure_of (a : Acquisition) : exn :=
  match a with
  | OpenFails c =>
      if (c =? 5)%Z then PlainException AccessDenied
      else if (c =? 2)%Z then PlainException NotFound
      else OSError c
  | MapFails c => OSError c
  | Mapped _ => ParseError
  end.

(** The number a sensor of the current payload resolves to: [None] when
    the id is absent or its value is not the text of a float. *)
Definition sensor_float (sensor_id : string) (w : World) : option PyFloat.float :=
  match tget (Some sensor_id) (table_of (shm w (clock w))) with
  | Some r =>
      match PyFloat.of_text (value r) with
      | inr x => Some x
      | inl _ => None
      end
  | None => None
  end.

(** A computation is determined by the payload when, in any two worlds in
    front of the same unchanging payload and the same [psutil], it gives the
    same outcome, and it leaves the payload and [psutil] as they are.  The
    globals and the clock are free to differ. *)
Definition payload_determined {A} (m : M A) : Prop :=
  forall a w1 w2,
    unchanged a w1 -> unchanged a w2 -> psutil w1 = psutil w2 ->
    fst (m w1) = fst (m w2) /\
    unchanged a (snd (m w1)) /\
    psutil (snd (m w1)) = psutil w1.

(** The queries that answer for every payload; the other four can let an
    exception out. *)
Definition never_raises {A} (q : query A) : bool :=
  match q with
  | q_cpu_frequency | q_gpu_stats
  | q_memory_virtual_used | q_memory_virtual_free => false
  | _ => true
  end.

(** The finite float [(-1)^s * m * 2^e] times the integer [k]: its integer
    part, toward zero, and whether it is exactly the integer [n]. *)
Definition trunc_scaled (s : bool) (m : positive) (e k : Z) : Z :=
  Z.quot (cond_Zopp s (Zpos m) * k * 2 ^ Z.max 0 e) (2 ^ Z.max 0 (- e)).

Definition exactly_scaled (s : bool) (m : positive) (e k n : Z) : bool :=
  (n * 2 ^ Z.max 0 (- e) =? cond_Zopp s (Zpos m) * k * 2 ^ Z.max 0 e)%Z.

(** The register of a right shift with nothing shifted out yet. *)
Definition rec0 (m : Z) : shr_record :=
  {| shr_m := m; shr_r := false; shr_s := false |}.

(** The world after a cycle that parsed [t], and after one that failed
    with [e]. *)
Definition after_success (w : World) (t : table) : World :=
  {| shm := shm w; psutil := psutil w; clock := S (clock w);
     _sensor_cache := t; _cache_valid := true; log := log w |}.

Definition after_failure (w : World) (e : exn) : World :=
  {| shm := shm w; psutil := psutil w; clock := S (clock w);
     _sensor_cache := _sensor_cache w; _cache_valid := false;
     log := log w ++ [e] |}.


(** A table whose records all have the text of an id and of a label. *)
Definition well_labelled (d : table) : Prop :=
  forall k r, In (k, r) d -> k <> None /\ label r <> None.

(** The floats that the scan of [Cpu.frequency] collects from such a
    table: of the records whose id starts with [SCC-] and whose label
    contains [Clock], those whose value is the text of a float, in the
    order of the table. *)
Definition core_clock_values (d : table) : list PyFloat.float :=
  flat_map
    (fun kr =>
       match fst kr, label (snd kr) with
       | Some i, Some l =>
           if (startswith i "SCC-" && contains "Clock" l)%bool then
             match PyFloat.of_text (value (snd kr)) with
             | inr x => [x]
             | inl _ => []
             end
           else []
       | _, _ => []
       end) d.

(** The order of [<] on floats that are not NaN, as a rank compared
    lexicographically: the sign class, then the exponent, then the
    significand (both negated for negative numbers). *)
Definition rank (x : PyFloat.float) : Z * Z * Z :=
  match x with
  | S754_nan => (0, 0, 0)
  | S754_zero _ => (0, 0, 0)
  | S754_infinity true => (-2, 0, 0)
  | S754_infinity false => (2, 0, 0)
  | S754_finite true m e => (-1, - e, - Zpos m)
  | S754_finite false m e => (1, e, Zpos m)
  end.

Definition rank_lt (a b : Z * Z * Z) : Prop :=
  let '(a1, a2, a3) := a in
  let '(b1, b2, b3) := b in
  a1 < b1 \/ (a1 = b1 /\ (a2 < b2 \/ (a2 = b2 /\ a3 < b3))).

(** ** Statements about cycles, costs and exceptions *)

(** [n] acquisition cycles in a row. *)
Fixpoint cycles (n : nat) (w : World) : World :=
  match n with
  | O => w
  | S k => cycles k (snd (read_aida64_shared_memory w))
  end.

(** Of the [n] acquisitions that start at number [from]: the table of the
    latest one that succeeded, [d] when none did; and the causes of those
    that failed, oldest first. *)
Fixpoint latest_table (s : nat -> Acquisition) (from n : nat) (d : table) : table :=
  match n with
  | O => d
  | S k =>
      match s (from + k)%nat with
      | Mapped (Some root) => parse root
      | _ => latest_table s from k d
      end
  end.

Fixpoint failures (s : nat -> Acquisition) (from n : nat) : list exn :=
  match n with
  | O => []
  | S k =>
      failures s from k ++
      (if acquisition_fails (s (from + k)%nat) then [failure_of (s (from + k)%nat)]
       else [])
  end.

(** The acquisitions a query makes at most. *)
Definition max_cycles {A} (q : query A) : nat :=
  match q with
  | q_gpu_fps | q_gpu_frequency
  | q_disk_usage_percent | q_disk_used | q_disk_free | q_net_stats _ _ => 0
  | q_cpu_frequency => 2
  | q_cpu_temperature | q_gpu_stats => 3
  | _ => 1
  end.

(** The exceptions a query can let out. *)
Definition may_raise {A} (q : query A) : list exn :=
  match q with
  | q_cpu_frequency => [AttributeError; TypeError]
  | q_gpu_stats => [ZeroDivisionError]
  | q_memory_virtual_used | q_memory_virtual_free => [OverflowError]
  | _ => []
  end.

(** What a sensor resolves to, NaN standing for "no number". *)
Definition sensor_or_nan (sensor_id : string) (w : World) : PyFloat.float :=
  match sensor_float sensor_id w with
  | Some x => x
  | None => S754_nan
  end.

(** Two payloads used as instances. *)
Definition two_temperatures : list Element :=
  [sensor "temp" "TCPUIAC" "CPU IA Cores" "61"; sensor "temp" "TCPU" "CPU" "55"].

Definition two_cores : list Element :=
  [sensor "sys" "SCC-0" "CPU Core #1 Clock" "3200";
   sensor "sys" "SCC-1" "CPU Core #2 Clock" "3600"].

(** The shared memory cannot be read: every acquisition fails, each one in
    a way of its own. *)
Definition always_fails (w : World) : Prop :=
  forall n, acquisition_fails (shm w n) = true.

(** A shared memory that is refused at the first acquisition, cannot be
    mapped at the second and holds no markup from the third on. *)
Definition refused_then_unmapped : World :=
  {| shm := fun n => match n with
                     | O => OpenFails 5
                     | S O => MapFails 8
                     | S (S _) => Mapped None
                     end;
     psutil := no_psutil; clock := 0%nat;
     _sensor_cache := []; _cache_valid := false; log := [] |}.

(* ===================================================================== *)
(** * Properties                                                         *)
(* ===================================================================== *)

(** ** Dictionaries *)

Lemma key_eqb_eq (a b : key) : key_eqb a b = true <-> a = b.
Proof.
  destruct a as [x|], b as [y|]; simpl; split; intro H;
    try discriminate; try reflexivity.
  - apply String.eqb_eq in H. now subst.
  - injection H as ->. apply String.eqb_refl.
Qed.

Lemma key_eqb_refl (a : key) : key_eqb a a = true.
Proof. now apply key_eqb_eq. Qed.

Lemma key_eqb_neq (a b : key) : key_eqb a b = false <-> a <> b.
Proof.
  split.
  - intros H E. apply key_eqb_eq in E. congruence.
  - intro H. destruct (key_eqb a b) eqn:E; [|reflexivity].
    apply key_eqb_eq in E. contradiction.
Qed.

Lemma tget_tset (k k' : key) (v : SensorRecord) (d : table) :
  tget k' (tset k v d) = if key_eqb k' k then Some v else tget k' d.
Proof.
  unfold tget, tset.
  induction d as [|[k0 v0] r IH]; simpl.
  - reflexivity.
  - destruct (key_eqb k k0) eqn:E; simpl.
    + apply key_eqb_eq in E. subst k0.
      destruct (key_eqb k' k); reflexivity.
    + destruct (key_eqb k' k0) eqn:E'.
      * apply key_eqb_eq in E'. subst k0.
        destruct (key_eqb k' k) eqn:E''; [|reflexivity].
        apply key_eqb_eq in E''. subst k'.
        rewrite key_eqb_refl in E. discriminate.
      * exact IH.
Qed.

Lemma tget_app (k : key) (d1 d2 : table) :
  tget k (d1 ++ d2) = match tget k d1 with Some r => Some r | None => tget k d2 end.
Proof.
  unfold tget.
  induction d1 as [|[k0 v0] r IH]; simpl; [reflexivity|].
  destruct (key_eqb k k0); [reflexivity|exact IH].
Qed.

Lemma tget_In (k : key) (d : table) :
  In k (PyDict.keys d) <-> tget k d <> None.
Proof.
  unfold tget, PyDict.keys.
  induction d as [|[k0 v0] r IH]; simpl.
  - split; [tauto|congruence].
  - destruct (key_eqb k k0) eqn:E.
    + apply key_eqb_eq in E. subst. split; [discriminate|auto].
    + apply key_eqb_neq in E. rewrite <- IH. split.
      * intros [H|H]; [congruence|exact H].
      * auto.
Qed.

Lemma keys_tset (k : key) (v : SensorRecord) (d : table) :
  PyDict.keys (tset k v d) =
  if tmem k d then PyDict.keys d else PyDict.keys d ++ [k].
Proof.
  unfold tmem, PyDict.mem, tset, PyDict.keys.
  induction d as [|[k0 v0] r IH]; simpl; [reflexivity|].
  destruct (key_eqb k k0) eqn:E; simpl; [reflexivity|].
  rewrite IH. destruct (PyDict.get key_eqb k r); reflexivity.
Qed.

Lemma tmem_In (k : key) (d : table) : tmem k d = true <-> In k (PyDict.keys d).
Proof.
  rewrite tget_In. unfold tmem, PyDict.mem, tget.
  destruct (PyDict.get key_eqb k d); split; congruence.
Qed.

Lemma NoDup_keys_tset (k : key) (v : SensorRecord) (d : table) :
  NoDup (PyDict.keys d) -> NoDup (PyDict.keys (tset k v d)).
Proof.
  intro H. rewrite keys_tset. destruct (tmem k d) eqn:E; [exact H|].
  apply NoDup_app; [exact H|constructor; [simpl; tauto|constructor]|].
  intros x Hx [<-|[]]. apply tmem_In in Hx. congruence.
Qed.

(** ** Generic list facts *)

Lemma filter_none {A} (p : A -> bool) (l : list A) :
  (forall x, In x l -> p x = false) -> filter p l = [].
Proof.
  induction l as [|a l IH]; simpl; intro H; [reflexivity|].
  rewrite (H a) by auto. apply IH. auto.
Qed.

Lemma filter_all {A} (p : A -> bool) (l : list A) :
  (forall x, In x l -> p x = true) -> filter p l = l.
Proof.
  induction l as [|a l IH]; simpl; intro H; [reflexivity|].
  rewrite (H a) by auto. f_equal. apply IH. auto.
Qed.

Lemma filter_split_perm {A} (p q : A -> bool) (l : list A) :
  (forall x, In x l -> p x = true -> q x = false) ->
  Permutation (filter p l ++ filter q l) (filter (fun x => p x || q x)%bool l).
Proof.
  induction l as [|a l IH]; simpl; intro H; [constructor|].
  assert (IH' := IH (fun x Hx => H x (or_intror Hx))).
  destruct (p a) eqn:Ep; simpl.
  - rewrite (H a) by auto. constructor. exact IH'.
  - destruct (q a); [|exact IH'].
    apply Permutation_sym, Permutation_cons_app, Permutation_sym, IH'.
Qed.

Lemma flat_map_single {A} (ty : string) (X : list A) (ts : list string) :
  NoDup ts -> In ty ts ->
  flat_map (fun t => if String.eqb t ty then X else []) ts = X.
Proof.
  induction 1 as [|t ts Hnin Hnd IH]; simpl; [tauto|].
  intros [->|Hin].
  - rewrite String.eqb_refl.
    assert (E : flat_map (fun t => if String.eqb t ty then X else []) ts = []).
    { clear IH Hnd. induction ts as [|u ts IHts]; simpl; [reflexivity|].
      destruct (String.eqb u ty) eqn:Eu.
      - apply String.eqb_eq in Eu. subst. simpl in Hnin. tauto.
      - apply IHts. simpl in Hnin. tauto. }
    rewrite E. apply app_nil_r.
  - destruct (String.eqb t ty) eqn:Et.
    + apply String.eqb_eq in Et. subst. contradiction.
    + apply IH, Hin.
Qed.

(** ** The table as a fold over the visited records *)

Lemma parse_elems_fold (ty : string) (root : Element) (d : table) :
  parse_elems ty root d = fold_left store (category_records ty root) d.
Proof.
  unfold parse_elems, category_records.
  generalize (findall ty root) as l. intro l. revert d.
  induction l as [|e l IH]; simpl; intro d; [reflexivity|].
  destruct (record_of ty e); simpl; apply IH.
Qed.

Lemma parse_visited (root : Element) :
  parse root = fold_left store (visited root) [].
Proof.
  unfold parse, visited, categories. simpl.
  rewrite !parse_elems_fold, app_nil_r, !fold_left_app. reflexivity.
Qed.

Lemma last_with_cons (k : key) (x : key * SensorRecord) (l : list (key * SensorRecord)) :
  last_with k (x :: l) =
  match last_with k l with
  | Some r => Some r
  | None => if key_eqb k (fst x) then Some (snd x) else None
  end.
Proof.
  unfold last_with. simpl. fold (tget k (rev l ++ [x])). rewrite tget_app.
  destruct x as [k0 v0]. unfold tget. simpl.
  destruct (PyDict.get key_eqb k (rev l)); [reflexivity|].
  destruct (key_eqb k k0); reflexivity.
Qed.

Lemma tget_fold (k : key) (l : list (key * SensorRecord)) (d : table) :
  tget k (fold_left store l d) =
  match last_with k l with Some r => Some r | None => tget k d end.
Proof.
  revert d. induction l as [|x l IH]; intro d; simpl; [reflexivity|].
  rewrite IH, last_with_cons. unfold store. rewrite tget_tset.
  destruct (last_with k l); [reflexivity|].
  destruct (key_eqb k (fst x)); reflexivity.
Qed.

Lemma last_with_None (k : key) (l : list (key * SensorRecord)) :
  last_with k l = None <-> ~ In k (map fst l).
Proof.
  induction l as [|x l IH]; simpl.
  - unfold last_with. simpl. tauto.
  - rewrite last_with_cons. destruct (last_with k l) eqn:E.
    + split; [discriminate|]. intro H. exfalso.
      assert (N : ~ In k (map fst l)) by tauto.
      apply IH in N. discriminate.
    + destruct (key_eqb k (fst x)) eqn:Ek.
      * apply key_eqb_eq in Ek. split; [discriminate|]. intro H.
        exfalso. apply H. left. now symmetry.
      * apply key_eqb_neq in Ek. split; [|reflexivity].
        intros _ [H|H]; [congruence|]. now apply IH in H.
Qed.

Lemma keys_fold_In (k : key) (l : list (key * SensorRecord)) (d : table) :
  In k (PyDict.keys (fold_left store l d)) <->
  In k (PyDict.keys d) \/ In k (map fst l).
Proof.
  rewrite !tget_In, tget_fold.
  destruct (last_with k l) eqn:E.
  - split; [|discriminate]. intros _. right.
    destruct (in_dec key_dec k (map fst l)) as [H|H]; [exact H|].
    apply last_with_None in H. congruence.
  - apply last_with_None in E. tauto.
Qed.

Lemma NoDup_keys_fold (l : list (key * SensorRecord)) (d : table) :
  NoDup (PyDict.keys d) -> NoDup (PyDict.keys (fold_left store l d)).
Proof.
  revert d. induction l as [|x l IH]; intros d H; simpl; [exact H|].
  apply IH. unfold store. apply NoDup_keys_tset, H.
Qed.

Lemma length_keys (d : table) : List.length (PyDict.keys d) = List.length d.
Proof. apply length_map. Qed.

Lemma length_fold (l : list (key * SensorRecord)) (d : table) :
  NoDup (PyDict.keys d ++ map fst l) ->
  List.length (fold_left store l d) = (List.length d + List.length l)%nat.
Proof.
  revert d. induction l as [|x l IH]; intros d H; simpl; [lia|].
  assert (Hx : tmem (fst x) d = false).
  { destruct (tmem (fst x) d) eqn:E; [|reflexivity].
    apply tmem_In in E. simpl in H. apply NoDup_remove_2 in H.
    exfalso. apply H, in_or_app. auto. }
  assert (Hk : PyDict.keys (store d x) = PyDict.keys d ++ [fst x]).
  { unfold store. rewrite keys_tset, Hx. reflexivity. }
  rewrite IH.
  - rewrite <- (length_keys (store d x)), Hk, length_app, length_keys. simpl. lia.
  - rewrite Hk, <- app_assoc. exact H.
Qed.

(** ** Visiting order against document order *)

Lemma record_of_type (ty : string) (e : Element) (kr : key * SensorRecord) :
  record_of ty e = Some kr -> type (snd kr) = ty.
Proof.
  unfold record_of.
  destruct (find "id" e), (find "label" e), (find "value" e); try discriminate.
  intros [= <-]. reflexivity.
Qed.

Lemma category_records_filter (ty : string) (root : Element) :
  is_category ty = true ->
  category_records ty root = filter (has_type ty) (valid_records root).
Proof.
  intro Hc. unfold category_records, valid_records, findall.
  induction (children root) as [|c cs IH]; simpl; [reflexivity|].
  rewrite filter_app, <- IH.
  destruct (String.eqb (tag c) ty) eqn:E.
  - apply String.eqb_eq in E. simpl. f_equal.
    unfold doc_record. rewrite E, Hc.
    destruct (record_of ty c) eqn:R; simpl; [|reflexivity].
    unfold has_type. rewrite (record_of_type _ _ _ R), String.eqb_refl.
    reflexivity.
  - unfold doc_record. destruct (is_category (tag c)); simpl; [|reflexivity].
    destruct (record_of (tag c) c) eqn:R; simpl; [|reflexivity].
    unfold has_type. rewrite (record_of_type _ _ _ R), E. reflexivity.
Qed.

Lemma valid_records_category (root : Element) (kr : key * SensorRecord) :
  In kr (valid_records root) -> is_category (type (snd kr)) = true.
Proof.
  unfold valid_records. rewrite in_flat_map. intros [e [_ H]].
  unfold doc_record in H. destruct (is_category (tag e)) eqn:Hc; [|destruct H].
  destruct (record_of (tag e) e) eqn:R; simpl in H; [|destruct H].
  destruct H as [<-|[]]. now rewrite (record_of_type _ _ _ R).
Qed.

Lemma visited_by_type (root : Element) :
  visited root =
  flat_map (fun ty => filter (has_type ty) (valid_records root)) categories.
Proof.
  unfold visited, categories. simpl.
  rewrite !category_records_filter by reflexivity. reflexivity.
Qed.

Lemma NoDup_categories : NoDup categories.
Proof.
  unfold categories.
  repeat (constructor; [simpl; intuition discriminate|]). constructor.
Qed.

Lemma by_type_perm (ts : list string) (l : list (key * SensorRecord)) :
  NoDup ts ->
  Permutation (flat_map (fun ty => filter (has_type ty) l) ts)
              (filter (fun kr => existsb (String.eqb (type (snd kr))) ts) l).
Proof.
  induction 1 as [|t ts Hnin Hnd IH]; simpl.
  - rewrite filter_none by reflexivity. constructor.
  - eapply Permutation_trans; [apply Permutation_app_head, IH|].
    apply (filter_split_perm (has_type t)
             (fun kr => existsb (String.eqb (type (snd kr))) ts)).
    intros x _ Hx. unfold has_type in Hx. apply String.eqb_eq in Hx.
    destruct (existsb (String.eqb (type (snd x))) ts) eqn:E; [|reflexivity].
    apply existsb_exists in E. destruct E as [u [Hu Eu]].
    apply String.eqb_eq in Eu. exfalso. apply Hnin. congruence.
Qed.

Lemma visited_perm (root : Element) :
  Permutation (visited root) (valid_records root).
Proof.
  rewrite visited_by_type.
  eapply Permutation_trans; [apply by_type_perm, NoDup_categories|].
  rewrite filter_all; [apply Permutation_refl|].
  intros x Hx. apply (valid_records_category root x Hx).
Qed.

Lemma valid_records_length (root : Element) :
  List.length (valid_records root) = List.length (filter is_valid (children root)).
Proof.
  unfold valid_records, is_valid.
  induction (children root) as [|c cs IH]; simpl; [reflexivity|].
  rewrite length_app, IH. destruct (doc_record c); reflexivity.
Qed.

Lemma last_with_filter (k : key) (l : list (key * SensorRecord)) :
  last_with k l = last_with k (filter (has_key k) l).
Proof.
  induction l as [|x l IH]; simpl; [reflexivity|].
  unfold has_key at 1. destruct (key_eqb k (fst x)) eqn:E.
  - rewrite !last_with_cons, IH, E. reflexivity.
  - rewrite last_with_cons, IH, E.
    destruct (last_with k (filter (has_key k) l)); reflexivity.
Qed.

Lemma filter_key_visited (k : key) (ty : string) (root : Element) :
  (forall kr, In kr (valid_records root) -> fst kr = k -> type (snd kr) = ty) ->
  filter (has_key k) (visited root) = filter (has_key k) (valid_records root).
Proof.
  intro H. rewrite visited_by_type.
  destruct (filter (has_key k) (valid_records root)) as [|x0 rest] eqn:EF.
  - apply filter_none. intros x Hx. apply in_flat_map in Hx.
    destruct Hx as [t [_ Hx]]. apply filter_In in Hx. destruct Hx as [Hx _].
    destruct (has_key k x) eqn:E; [|reflexivity].
    assert (In x (filter (has_key k) (valid_records root)))
      by (apply filter_In; auto).
    rewrite EF in H0. destruct H0.
  - rewrite <- EF.
    assert (Hin : In x0 (filter (has_key k) (valid_records root)))
      by (rewrite EF; left; reflexivity).
    apply filter_In in Hin. destruct Hin as [Hin Hk].
    apply key_eqb_eq in Hk.
    assert (Hty : In ty categories).
    { assert (C := valid_records_category root x0 Hin).
      rewrite (H x0 Hin (eq_sym Hk)) in C. unfold is_category in C.
      apply existsb_exists in C. destruct C as [u [Hu Eu]].
      apply String.eqb_eq in Eu. now subst. }
    rewrite <- (flat_map_single ty (filter (has_key k) (valid_records root))
                  categories NoDup_categories Hty).
    generalize categories as ts. intro ts.
    induction ts as [|t ts IH]; simpl; [reflexivity|].
    rewrite filter_app, IH. f_equal.
    destruct (String.eqb t ty) eqn:Et.
    + apply String.eqb_eq in Et. subst t.
      generalize H. generalize (valid_records root) as l. clear.
      induction l as [|a l IHl]; simpl; intro H; [reflexivity|].
      destruct (has_key k a) eqn:Ea.
      * assert (has_type ty a = true).
        { unfold has_type. rewrite (H a); [apply String.eqb_refl|auto|].
          symmetry. now apply key_eqb_eq. }
        rewrite H0. simpl. rewrite Ea. f_equal. apply IHl. auto.
      * destruct (has_type ty a); simpl; [rewrite Ea|]; apply IHl; auto.
    + apply filter_none. intros x Hx. apply filter_In in Hx.
      destruct Hx as [Hx Tx]. destruct (has_key k x) eqn:E; [|reflexivity].
      apply key_eqb_eq in E. unfold has_type in Tx. apply String.eqb_eq in Tx.
      rewrite (H x Hx (eq_sym E)) in Tx. subst t.
      rewrite String.eqb_refl in Et. discriminate.
Qed.

Lemma valid_records_skip (root : Element) :
  valid_records root =
  valid_records (Elem (tag root) (text root)
                   (filter (fun e => negb (is_malformed e)) (children root))).
Proof.
  unfold valid_records. simpl.
  induction (children root) as [|c cs IH]; simpl; [reflexivity|].
  unfold is_malformed at 1, is_valid at 1.
  destruct (doc_record c) eqn:D; simpl.
  - rewrite andb_false_r. simpl. rewrite D. simpl. f_equal. exact IH.
  - unfold doc_record in D. destruct (is_category (tag c)) eqn:C; simpl.
    + exact IH.
    + unfold doc_record. rewrite C. simpl. exact IH.
Qed.

(** ** The parsed table (C4, C5, C6) *)

(** C4, as amended.  The keys of the parsed table are exactly the ids of the
    valid records; no key occurs twice; the number of entries is the number
    of distinct ids among the valid records, which is the number N of valid
    records when their ids are pairwise distinct; and the malformed records
    are passed over: the table is the one of the payload without them. *)
Theorem parse_entries (root : Element) :
  (forall k, In k (PyDict.keys (parse root)) <-> In k (map fst (valid_records root))) /\
  NoDup (PyDict.keys (parse root)) /\
  List.length (parse root) =
    List.length (nodup key_dec (map fst (valid_records root))) /\
  (NoDup (map fst (valid_records root)) ->
   List.length (parse root) = List.length (filter is_valid (children root))) /\
  parse root =
    parse (Elem (tag root) (text root)
             (filter (fun e => negb (is_malformed e)) (children root))).
Proof.
  assert (Hin : forall k, In k (PyDict.keys (parse root)) <->
                          In k (map fst (valid_records root))).
  { intro k. rewrite parse_visited, keys_fold_In. simpl.
    assert (P := Permutation_map fst (visited_perm root)).
    split.
    - intros [[]|H]. eapply Permutation_in; eauto.
    - intro H. right. eapply Permutation_in; [apply Permutation_sym|]; eauto. }
  assert (Hnd : NoDup (PyDict.keys (parse root))).
  { rewrite parse_visited. apply NoDup_keys_fold. constructor. }
  repeat split; try (apply Hin); try exact Hnd.
  - rewrite <- length_keys. apply Permutation_length.
    apply NoDup_Permutation; [exact Hnd|apply NoDup_nodup|].
    intro k. rewrite nodup_In. apply Hin.
  - intro H. rewrite parse_visited, length_fold.
    + simpl. rewrite (Permutation_length (visited_perm root)).
      apply valid_records_length.
    + simpl. eapply Permutation_NoDup; [|exact H].
      apply Permutation_sym, Permutation_map, visited_perm.
  - rewrite !parse_visited, !visited_by_type, <- valid_records_skip.
    reflexivity.
Qed.

(** Two valid records with distinct ids and one malformed record (no
    [value]): the table has two entries. *)
Lemma parse_entries_witness :
  List.length
    (parse (aida64 [sensor "sys" "SCPUCLK" "CPU Clock" "3400";
                    Elem "temp" None [Elem "id" (Some "TCPU") [];
                                      Elem "label" (Some "CPU") []];
                    sensor "fan" "FCPU" "CPU" "900"])) = 2%nat.
Proof.
  apply (proj1 (proj2 (proj2 (proj2
           (parse_entries
              (aida64 [sensor "sys" "SCPUCLK" "CPU Clock" "3400";
                       Elem "temp" None [Elem "id" (Some "TCPU") [];
                                         Elem "label" (Some "CPU") []];
                       sensor "fan" "FCPU" "CPU" "900"])))))).
  simpl. repeat constructor; simpl; intuition discriminate.
Defined.

(** C4, the claim as stated fails: two valid records that share an id, no
    malformed record, and a table of one entry. *)
Lemma parse_entries_shared_id :
  let root := aida64 [sensor "sys" "SCPUCLK" "CPU Clock" "3400";
                      sensor "sys" "SCPUCLK" "CPU Clock" "3500"] in
  List.length (filter is_valid (children root)) = 2%nat /\
  List.length (filter is_malformed (children root)) = 0%nat /\
  List.length (parse root) = 1%nat.
Proof. repeat split. Qed.

(** C5, as amended.  The table maps an id to the record with that id that
    the five loops meet last: all [sys] elements in document order, then
    [temp], [fan], [volt] and [pwr].  When the valid records with that id
    are all of one category, this is the last one in document order. *)
Theorem parse_last_visited_wins (root : Element) (k : key) :
  tget k (parse root) = last_with k (visited root) /\
  (forall ty,
     (forall kr, In kr (valid_records root) -> fst kr = k -> type (snd kr) = ty) ->
     tget k (parse root) = last_with k (valid_records root)).
Proof.
  assert (H : tget k (parse root) = last_with k (visited root)).
  { rewrite parse_visited, tget_fold.
    destruct (last_with k (visited root)); reflexivity. }
  split; [exact H|].
  intros ty Hty. rewrite H, last_with_filter, (filter_key_visited k ty root Hty).
  symmetry. apply last_with_filter.
Qed.

(** Two [sys] records with the same id: the later one is in the table. *)
Lemma parse_last_visited_wins_witness :
  tget (Some "SCPUCLK")
    (parse (aida64 [sensor "sys" "SCPUCLK" "CPU Clock" "3400";
                    sensor "sys" "SCPUCLK" "CPU Clock" "3500"])) =
  Some {| type := "sys"; label := Some "CPU Clock"; value := Some "3500" |}.
Proof.
  apply (proj2 (parse_last_visited_wins
                  (aida64 [sensor "sys" "SCPUCLK" "CPU Clock" "3400";
                           sensor "sys" "SCPUCLK" "CPU Clock" "3500"])
                  (Some "SCPUCLK")) "sys").
  simpl. intros kr [<-|[<-|[]]] _; reflexivity.
Defined.

(** C5, the claim as stated fails: the [sys] record is last in document
    order, and the table holds the [temp] record. *)
Lemma parse_last_in_document_loses :
  let root := aida64 [sensor "temp" "X" "first" "1"; sensor "sys" "X" "second" "2"] in
  last_with (Some "X") (valid_records root) =
    Some {| type := "sys"; label := Some "second"; value := Some "2" |} /\
  tget (Some "X") (parse root) =
    Some {| type := "temp"; label := Some "first"; value := Some "1" |}.
Proof. split; reflexivity. Qed.

(** C6, at the failing payload
    [<sys><id></id><label>CPU</label><value>1</value></sys>]: the [id]
    child is present, its text is [None], and the table has the key
    [None]. *)
Theorem parse_empty_id_key :
  PyDict.keys (parse (aida64 [sensor "sys" "" "CPU" "1"])) = [None].
Proof. reflexivity. Qed.

(** ** One acquisition cycle (C2, C3) *)

Lemma read_spec (w : World) :
  read_aida64_shared_memory w =
  match shm w (clock w) with
  | Mapped (Some root) => (Ret (parse root), after_success w (parse root))
  | a => (Ret [], after_failure w (failure_of a))
  end.
Proof.
  unfold read_aida64_shared_memory, try_except_all, open_map_parse, bind,
    next_acquisition.
  destruct (shm w (clock w)) as [c|c|[root|]]; simpl; try reflexivity.
  destruct (c =? 5)%Z; [reflexivity|]. destruct (c =? 2)%Z; reflexivity.
Qed.

Lemma read_result (w : World) :
  result read_aida64_shared_memory w = Ret (table_of (shm w (clock w))).
Proof.
  unfold result. rewrite read_spec.
  destruct (shm w (clock w)) as [c|c|[root|]]; reflexivity.
Qed.

Lemma read_frame (w : World) :
  shm (snd (read_aida64_shared_memory w)) = shm w /\
  psutil (snd (read_aida64_shared_memory w)) = psutil w /\
  clock (snd (read_aida64_shared_memory w)) = S (clock w).
Proof.
  rewrite read_spec.
  destruct (shm w (clock w)) as [c|c|[root|]]; repeat split.
Qed.

Lemma of_text_raises (x : option string) (e : exn) :
  PyFloat.of_text x = inl e -> e = ValueError \/ e = TypeError.
Proof.
  unfold PyFloat.of_text. destruct x as [s|]; [|intros [= <-]; auto].
  destruct (PyFloat.of_chars _); [discriminate|]. intros [= <-]. auto.
Qed.

Lemma tmem_tget (k : key) (d : table) :
  tmem k d = match tget k d with Some _ => true | None => false end.
Proof. reflexivity. Qed.

(** [get_sensor_value] never raises: it answers the float of the sensor's
    value, or the default. *)
Lemma get_sensor_value_spec (sensor_id : string) (default_value : PyFloat.float)
  (w : World) :
  get_sensor_value sensor_id default_value w =
  (Ret (match sensor_float sensor_id w with
        | Some x => x
        | None => default_value
        end),
   snd (read_aida64_shared_memory w)).
Proof.
  unfold get_sensor_value, sensor_float, bind, try_except.
  assert (R := read_result w). unfold result in R.
  destruct (read_aida64_shared_memory w) as [o w'] eqn:E. simpl in R. subst o.
  simpl. rewrite tmem_tget. unfold getitem, lift.
  destruct (tget (Some sensor_id) (table_of (shm w (clock w)))) as [r|];
    simpl; [|reflexivity].
  destruct (PyFloat.of_text (value r)) as [e|x] eqn:F; simpl; [|reflexivity].
  destruct (of_text_raises _ _ F) as [-> | ->]; reflexivity.
Qed.

Lemma get_sensor_string_spec (sensor_id default_value : string) (w : World) :
  get_sensor_string sensor_id default_value w =
  (Ret (match tget (Some sensor_id) (table_of (shm w (clock w))) with
        | Some r => py_str (value r)
        | None => default_value
        end),
   snd (read_aida64_shared_memory w)).
Proof.
  unfold get_sensor_string, bind, try_except.
  assert (R := read_result w). unfold result in R.
  destruct (read_aida64_shared_memory w) as [o w'] eqn:E. simpl in R. subst o.
  simpl. rewrite tmem_tget. unfold getitem, lift.
  destruct (tget (Some sensor_id) (table_of (shm w (clock w)))) as [r|];
    reflexivity.
Qed.

Lemma table_of_fails (a : Acquisition) :
  acquisition_fails a = true -> table_of a = [].
Proof. destruct a as [c|c|[root|]]; simpl; congruence. Qed.

(** C2.  When the acquisition fails (the mapping cannot be opened, the view
    cannot be mapped, or the payload is not well-formed markup),
    [get_sensor_value] and [get_sensor_string] return their default, for
    every sensor id and every default, and raise nothing; with the defaults
    of the source these are NaN and the empty string. *)
Theorem failed_acquisition_gives_default (w : World) (sensor_id : string)
  (default_value : PyFloat.float) (default_string : string) :
  acquisition_fails (shm w (clock w)) = true ->
  result (get_sensor_value sensor_id default_value) w = Ret default_value /\
  result (get_sensor_string sensor_id default_string) w = Ret default_string /\
  result (get_sensor_value sensor_id math_nan) w = Ret S754_nan /\
  result (get_sensor_string sensor_id "") w = Ret "".
Proof.
  intro H. apply table_of_fails in H. unfold result.
  rewrite !get_sensor_value_spec, !get_sensor_string_spec.
  unfold sensor_float. rewrite H. repeat split.
Qed.

Lemma failed_acquisition_gives_default_witness :
  acquisition_fails (shm (fresh (OpenFails 2)) (clock (fresh (OpenFails 2)))) = true /\
  result (get_sensor_value "SCPUUTI" math_nan) (fresh (OpenFails 2)) = Ret S754_nan.
Proof.
  split; [reflexivity|].
  apply (failed_acquisition_gives_default (fresh (OpenFails 2)) "SCPUUTI"
           math_nan ""); reflexivity.
Defined.




(** ** Resolution over an unchanged payload (C9) *)

Lemma pd_ret {A} (a : A) : payload_determined (ret a).
Proof. intros p w1 w2 H1 H2 Hp. simpl. auto. Qed.

Lemma pd_raise {A} (e : exn) : payload_determined (@raise A e).
Proof. intros p w1 w2 H1 H2 Hp. simpl. auto. Qed.

Lemma pd_lift {A} (r : exn + A) : payload_determined (lift r).
Proof. destruct r; [apply pd_raise|apply pd_ret]. Qed.

Lemma pd_bind {A B} (m : M A) (k : A -> M B) :
  payload_determined m -> (forall x, payload_determined (k x)) ->
  payload_determined (bind m k).
Proof.
  intros Hm Hk p w1 w2 H1 H2 Hp. unfold bind.
  destruct (Hm p w1 w2 H1 H2 Hp) as [E [U1 P1]].
  destruct (Hm p w2 w1 H2 H1 (eq_sym Hp)) as [_ [U2 P2]].
  destruct (m w1) as [o1 w1'], (m w2) as [o2 w2']. simpl in *. subst o2.
  destruct o1 as [x|e]; simpl; [|auto].
  destruct (Hk x p w1' w2' U1 U2) as [E' [U' P']]; [congruence|].
  repeat split; [exact E'|exact U'|congruence].
Qed.

Lemma pd_try_except {A} (m h : M A) (classes : list exn_class) :
  payload_determined m -> payload_determined h ->
  payload_determined (try_except m classes h).
Proof.
  intros Hm Hh p w1 w2 H1 H2 Hp. unfold try_except.
  destruct (Hm p w1 w2 H1 H2 Hp) as [E [U1 P1]].
  destruct (Hm p w2 w1 H2 H1 (eq_sym Hp)) as [_ [U2 P2]].
  destruct (m w1) as [o1 w1'], (m w2) as [o2 w2']. simpl in *. subst o2.
  destruct o1 as [x|e]; simpl; [auto|].
  destruct (existsb (exn_in_class e) classes); simpl; [|auto].
  destruct (Hh p w1' w2' U1 U2) as [E' [U' P']]; [congruence|].
  repeat split; [exact E'|exact U'|congruence].
Qed.

Lemma pd_try_except_all {A} (m : M A) (h : exn -> M A) :
  payload_determined m -> (forall e, payload_determined (h e)) ->
  payload_determined (try_except_all m h).
Proof.
  intros Hm Hh p w1 w2 H1 H2 Hp. unfold try_except_all.
  destruct (Hm p w1 w2 H1 H2 Hp) as [E [U1 P1]].
  destruct (Hm p w2 w1 H2 H1 (eq_sym Hp)) as [_ [U2 P2]].
  destruct (m w1) as [o1 w1'], (m w2) as [o2 w2']. simpl in *. subst o2.
  destruct o1 as [x|e]; simpl; [auto|].
  destruct (Hh e p w1' w2' U1 U2) as [E' [U' P']]; [congruence|].
  repeat split; [exact E'|exact U'|congruence].
Qed.

Lemma pd_read : payload_determined read_aida64_shared_memory.
Proof.
  intros p w1 w2 H1 H2 Hp.
  assert (R1 := read_result w1). assert (R2 := read_result w2).
  destruct (read_frame w1) as [F1 [F2 _]].
  unfold result in *. rewrite R1, R2, (H1 (clock w1)), (H2 (clock w2)).
  repeat split; [|exact F2].
  intro n. rewrite F1. apply H1.
Qed.

Lemma pd_getloadavg : payload_determined Cpu.psutil_getloadavg.
Proof.
  intros p w1 w2 H1 H2 Hp. unfold Cpu.psutil_getloadavg. rewrite Hp.
  destruct (getloadavg (psutil w2)); simpl; auto.
Qed.

Lemma pd_disk_usage : payload_determined psutil_disk_usage.
Proof.
  intros p w1 w2 H1 H2 Hp. unfold psutil_disk_usage. rewrite Hp.
  destruct (disk_usage (psutil w2)); simpl; auto.
Qed.

Lemma pd_net_io_counters : payload_determined psutil_net_io_counters.
Proof.
  intros p w1 w2 H1 H2 Hp. unfold psutil_net_io_counters. rewrite Hp.
  destruct (net_io_counters (psutil w2)); simpl; auto.
Qed.

Ltac pd_step :=
  first
    [ apply pd_ret | apply pd_raise | apply pd_lift | apply pd_read
    | apply pd_getloadavg | apply pd_disk_usage | apply pd_net_io_counters
    | apply pd_bind; [|intro]
    | apply pd_try_except
    | apply pd_try_except_all; [|intro]
    | match goal with
      | |- payload_determined (if ?b then _ else _) => destruct b
      | |- payload_determined (match ?x with _ => _ end) => destruct x
      end ].

Lemma pd_get_sensor_value (sensor_id : string) (default_value : PyFloat.float) :
  payload_determined (get_sensor_value sensor_id default_value).
Proof. unfold get_sensor_value. repeat pd_step. Qed.

Lemma pd_get_sensor_string (sensor_id default_value : string) :
  payload_determined (get_sensor_string sensor_id default_value).
Proof. unfold get_sensor_string. repeat pd_step. Qed.

Lemma pd_resolve {A} (q : query A) : payload_determined (resolve q).
Proof.
  destruct q; simpl;
    unfold Cpu.percentage, Cpu.frequency, Cpu.load, Cpu.temperature,
      Cpu.fan_percent, Cpu.voltage, Cpu.power, Gpu.stats, Gpu.fps,
      Gpu.fan_percent, Gpu.frequency, Gpu.voltage, Gpu.power,
      Gpu.is_available, Memory.swap_percent, Memory.virtual_percent,
      Memory.virtual_used, Memory.virtual_free, Disk.disk_usage_percent,
      Disk.disk_used, Disk.disk_free, Net.stats;
    repeat first [apply pd_get_sensor_value | apply pd_get_sensor_string | pd_step].
Qed.

(** C9.  In front of a payload that does not change, any query of the
    module, asked again right after it was answered, is answered the same:
    the same value or the same exception, whatever the first call left in
    the cache, the validity flag and the log. *)
Theorem resolve_twice_same {A} (q : query A) (a : Acquisition) (w : World) :
  unchanged a w ->
  result (resolve q) (snd (resolve q w)) = result (resolve q) w.
Proof.
  intro H.
  destruct (pd_resolve q a w w H H eq_refl) as [_ [U P]].
  destruct (pd_resolve q a (snd (resolve q w)) w U H P) as [E _].
  exact E.
Qed.

Lemma resolve_twice_same_witness :
  unchanged (Mapped (Some (aida64 [sensor "sys" "SCPUCLK" "CPU Clock" "3400"])))
    (payload [sensor "sys" "SCPUCLK" "CPU Clock" "3400"]) /\
  result (resolve q_cpu_frequency)
    (snd (resolve q_cpu_frequency
            (payload [sensor "sys" "SCPUCLK" "CPU Clock" "3400"]))) =
  result (resolve q_cpu_frequency)
    (payload [sensor "sys" "SCPUCLK" "CPU Clock" "3400"]).
Proof.
  assert (U : unchanged (Mapped (Some (aida64 [sensor "sys" "SCPUCLK" "CPU Clock" "3400"])))
                (payload [sensor "sys" "SCPUCLK" "CPU Clock" "3400"]))
    by (intro n; reflexivity).
  split; [exact U|].
  exact (resolve_twice_same q_cpu_frequency _ _ U).
Defined.

(** ** The facades (C1, C10) *)

Lemma bind_get_sensor_value {B} (sensor_id : string) (k : PyFloat.float -> M B)
  (w : World) :
  bind (get_sensor_value sensor_id math_nan) k w =
  k (match sensor_float sensor_id w with Some x => x | None => math_nan end)
    (snd (read_aida64_shared_memory w)).
Proof. unfold bind. rewrite get_sensor_value_spec. reflexivity. Qed.

Lemma bind_read {B} (k : table -> M B) (w : World) :
  bind read_aida64_shared_memory k w =
  k (table_of (shm w (clock w))) (snd (read_aida64_shared_memory w)).
Proof.
  unfold bind. assert (R := read_result w). unfold result in R.
  destruct (read_aida64_shared_memory w) as [o w']. simpl in *. now subst o.
Qed.

(** C10.  [Cpu.percentage] is the same computation for any two intervals;
    its answer is the float of the [SCPUUTI] value of the payload, NaN
    without one, so two payloads that agree on that sensor get the same
    answer whatever the intervals. *)
Theorem percentage_ignores_interval (interval1 interval2 : PyFloat.float) :
  Cpu.percentage interval1 = Cpu.percentage interval2 /\
  (forall w,
     result (Cpu.percentage interval1) w =
     Ret (match sensor_float "SCPUUTI" w with
          | Some x => x
          | None => S754_nan
          end)) /\
  (forall w1 w2,
     sensor_float "SCPUUTI" w1 = sensor_float "SCPUUTI" w2 ->
     result (Cpu.percentage interval1) w1 = result (Cpu.percentage interval2) w2).
Proof.
  split; [reflexivity|].
  assert (H : forall i w, result (Cpu.percentage i) w =
                          Ret (match sensor_float "SCPUUTI" w with
                               | Some x => x
                               | None => S754_nan
                               end)).
  { intros i w. unfold result, Cpu.percentage.
    rewrite get_sensor_value_spec. reflexivity. }
  split; [apply H|].
  intros w1 w2 E. rewrite !H, E. reflexivity.
Qed.

(** Two payloads that agree on [SCPUUTI], asked with different intervals. *)
Lemma percentage_ignores_interval_witness :
  result (Cpu.percentage (PyFloat.of_Z 1))
    (payload [sensor "sys" "SCPUUTI" "CPU Utilization" "7"]) =
  result (Cpu.percentage (PyFloat.of_Z 5))
    (payload [sensor "sys" "SCPUUTI" "CPU Utilization" "7";
              sensor "temp" "TCPU" "CPU" "40"]).
Proof.
  apply (proj2 (proj2 (percentage_ignores_interval (PyFloat.of_Z 1) (PyFloat.of_Z 5)))).
  reflexivity.
Defined.

(** C1, at the failing payload: [SUSEDVMEM] and [SFREEVMEM] are both
    present with value [0]; the total is [0.0] and the division lets
    [ZeroDivisionError] out of [Gpu.stats]. *)
Theorem gpu_stats_zero_memory_raises :
  result Gpu.stats
    (payload [sensor "sys" "SUSEDVMEM" "Used Video Memory" "0";
              sensor "sys" "SFREEVMEM" "Free Video Memory" "0"])
  = Raise ZeroDivisionError.
Proof. reflexivity. Qed.

(** The other ways out of the facades: an infinite (or overflowing) amount
    of memory, and the per-core scan of [Cpu.frequency] over a record with
    an empty label or an empty id. *)
Example virtual_used_infinite_raises :
  result Memory.virtual_used (payload [sensor "sys" "SUSEDMEM" "Used Memory" "inf"])
  = Raise OverflowError.
Proof. reflexivity. Qed.

Example virtual_free_overflow_raises :
  result Memory.virtual_free (payload [sensor "sys" "SFREEMEM" "Free Memory" "1e308"])
  = Raise OverflowError.
Proof. vm_compute. reflexivity. Qed.

(** Every other query answers, whatever the payload and the globals. *)
Lemma guarded_queries_answer {A} (q : query A) (w : World) :
  never_raises q = true -> exists v, result (resolve q) w = Ret v.
Proof.
  destruct q; simpl; try discriminate; intros _; unfold result;
    unfold Cpu.percentage, Cpu.load, Cpu.temperature, Cpu.fan_percent,
      Cpu.voltage, Cpu.power, Gpu.fps, Gpu.fan_percent, Gpu.frequency,
      Gpu.voltage, Gpu.power, Gpu.is_available, Memory.swap_percent,
      Memory.virtual_percent, Disk.disk_usage_percent, Disk.disk_used,
      Disk.disk_free, Net.stats;
    try (rewrite get_sensor_value_spec; eexists; reflexivity);
    try (rewrite get_sensor_string_spec; eexists; reflexivity);
    try (eexists; reflexivity).
  - (* Cpu.load *)
    unfold try_except, Cpu.psutil_getloadavg.
    destruct (getloadavg (psutil w)); [eexists; reflexivity|]. simpl.
    rewrite bind_get_sensor_value.
    destruct (negb (PyFloat.isnan _)); eexists; reflexivity.
  - (* Cpu.temperature *)
    rewrite bind_get_sensor_value.
    destruct (negb (PyFloat.isnan _)); [eexists; reflexivity|].
    rewrite bind_get_sensor_value.
    destruct (negb (PyFloat.isnan _)); [eexists; reflexivity|].
    rewrite get_sensor_value_spec. eexists; reflexivity.
  - (* Cpu.fan_percent *)
    rewrite bind_get_sensor_value.
    destruct (negb (PyFloat.isnan _)); eexists; reflexivity.
  - (* Gpu.fan_percent *)
    rewrite bind_get_sensor_value.
    destruct (negb (PyFloat.isnan _)); eexists; reflexivity.
  - (* Gpu.is_available *)
    rewrite bind_get_sensor_value. eexists; reflexivity.
  - (* Disk.disk_usage_percent *)
    unfold try_except_all, bind, psutil_disk_usage.
    destruct (disk_usage (psutil w)); eexists; reflexivity.
  - unfold try_except_all, bind, psutil_disk_usage.
    destruct (disk_usage (psutil w)); eexists; reflexivity.
  - unfold try_except_all, bind, psutil_disk_usage.
    destruct (disk_usage (psutil w)); eexists; reflexivity.
  - (* Net.stats *)
    unfold try_except_all, bind, psutil_net_io_counters.
    destruct (net_io_counters (psutil w)); [|eexists; reflexivity].
    destruct (PyDict.get String.eqb if_name l); eexists; reflexivity.
Qed.

(** ** Queries in front of a failing shared memory *)

Lemma unchanged_read (a : Acquisition) (w : World) :
  unchanged a w -> unchanged a (snd (read_aida64_shared_memory w)).
Proof.
  intros H n. destruct (read_frame w) as [F _]. rewrite F. apply H.
Qed.

Lemma always_fails_read (w : World) :
  always_fails w -> always_fails (snd (read_aida64_shared_memory w)).
Proof.
  intros H n. destruct (read_frame w) as [F _]. rewrite F. apply H.
Qed.

Lemma unchanged_always_fails (a : Acquisition) (w : World) :
  unchanged a w -> acquisition_fails a = true -> always_fails w.
Proof. intros U F n. now rewrite (U n). Qed.

Lemma sensor_float_fails (w : World) (sensor_id : string) :
  always_fails w -> sensor_float sensor_id w = None.
Proof.
  intros H. unfold sensor_float. now rewrite (table_of_fails _ (H (clock w))).
Qed.

(** While every acquisition fails, every query of the module answers: no
    exception leaves a facade. *)
Lemma failing_memory_answers {A} (q : query A) (w : World) :
  always_fails w -> exists v, result (resolve q) w = Ret v.
Proof.
  intros U.
  destruct (never_raises q) eqn:G; [now apply guarded_queries_answer|].
  assert (U1 := always_fails_read w U).
  assert (U2 := always_fails_read _ U1).
  destruct q; try discriminate; unfold result; simpl.
  - (* Cpu.frequency *)
    unfold Cpu.frequency.
    rewrite bind_get_sensor_value, (sensor_float_fails w _ U). simpl.
    rewrite bind_read, (table_of_fails _ (U1 _)). eexists; reflexivity.
  - (* Gpu.stats *)
    unfold Gpu.stats.
    rewrite bind_get_sensor_value, (sensor_float_fails w _ U).
    rewrite bind_get_sensor_value, (sensor_float_fails _ _ U1).
    rewrite bind_get_sensor_value, (sensor_float_fails _ _ U2).
    eexists; reflexivity.
  - (* Memory.virtual_used *)
    unfold Memory.virtual_used.
    rewrite bind_get_sensor_value, (sensor_float_fails w _ U).
    eexists; reflexivity.
  - (* Memory.virtual_free *)
    unfold Memory.virtual_free.
    rewrite bind_get_sensor_value, (sensor_float_fails w _ U).
    eexists; reflexivity.
Qed.

Lemma sensor_float_unchanged (a : Acquisition) (w w' : World) (sensor_id : string) :
  unchanged a w -> unchanged a w' ->
  sensor_float sensor_id w' = sensor_float sensor_id w.
Proof.
  intros U U'. unfold sensor_float. now rewrite (U (clock w)), (U' (clock w')).
Qed.

(** X15.  [Gpu.stats] in front of an unchanging payload.  The load is NaN
    and the temperature is [TGPU1], resolved on its own.  With a memory
    sensor missing the percentage and the total are NaN and the used
    memory is passed on; with both numeric the total is their sum and the
    percentage is used / total * 100, except that a zero total raises
    [ZeroDivisionError]. *)
Lemma gpu_stats_spec (a : Acquisition) (w : World) :
  unchanged a w ->
  result Gpu.stats w =
  let get sensor_id :=
    match sensor_float sensor_id w with Some x => x | None => S754_nan end in
  let temp := get "TGPU1" in
  let used_mem := get "SUSEDVMEM" in
  let free_mem := get "SFREEVMEM" in
  if (negb (PyFloat.isnan used_mem) && negb (PyFloat.isnan free_mem))%bool then
    let total_mem := PyFloat.add used_mem free_mem in
    if PyFloat.is_zero total_mem then Raise ZeroDivisionError
    else Ret (S754_nan,
              PyFloat.mul (SFdiv PyFloat.prec PyFloat.emax used_mem total_mem) f100,
              used_mem, total_mem, temp)
  else Ret (S754_nan, S754_nan, used_mem, S754_nan, temp).
Proof.
  intro U.
  assert (U1 := unchanged_read a w U).
  assert (U2 := unchanged_read a _ U1).
  unfold result, Gpu.stats.
  rewrite !bind_get_sensor_value.
  rewrite (sensor_float_unchanged a w _ "SFREEVMEM" U U2).
  rewrite (sensor_float_unchanged a w _ "SUSEDVMEM" U U1).
  cbv zeta.
  destruct (negb _ && negb _)%bool; [|reflexivity].
  unfold bind, lift, PyFloat.div.
  destruct (PyFloat.is_zero _); reflexivity.
Qed.

(** ** Scaling a float by a power of two is exact *)

Lemma shr_1_double (M : Z) : 0 <= M -> shr_1 (rec0 (2 * M)) = rec0 M.
Proof.
  intro H. destruct M as [|p|p]; [reflexivity|reflexivity|lia].
Qed.

Lemma iter_shr_exact (n : positive) (M : Z) :
  0 <= M -> iter_pos shr_1 n (rec0 (M * 2 ^ Zpos n)) = rec0 M.
Proof.
  revert M. induction n as [n IH|n IH|]; intros M H.
  - change (iter_pos shr_1 n~1 (rec0 (M * 2 ^ Z.pos n~1)))
      with (iter_pos shr_1 n (iter_pos shr_1 n (shr_1 (rec0 (M * 2 ^ Z.pos n~1))))).
    replace (M * 2 ^ Z.pos n~1) with (2 * ((M * 2 ^ Zpos n) * 2 ^ Zpos n)).
    + rewrite shr_1_double by (apply Z.mul_nonneg_nonneg; [apply Z.mul_nonneg_nonneg|]; lia).
      rewrite IH by (apply Z.mul_nonneg_nonneg; lia). apply IH, H.
    + assert (E : Z.pos n~1 = Z.pos n + Z.pos n + 1) by lia.
      rewrite E, !Z.pow_add_r, Z.pow_1_r by lia. ring.
  - change (iter_pos shr_1 n~0 (rec0 (M * 2 ^ Z.pos n~0)))
      with (iter_pos shr_1 n (iter_pos shr_1 n (rec0 (M * 2 ^ Z.pos n~0)))).
    replace (M * 2 ^ Z.pos n~0) with ((M * 2 ^ Zpos n) * 2 ^ Zpos n).
    + rewrite IH by (apply Z.mul_nonneg_nonneg; lia). apply IH, H.
    + assert (E : Z.pos n~0 = Z.pos n + Z.pos n) by lia.
      rewrite E, Z.pow_add_r by lia. ring.
  - change (iter_pos shr_1 1 (rec0 (M * 2 ^ 1))) with (shr_1 (rec0 (M * 2 ^ 1))).
    rewrite Z.pow_1_r, Z.mul_comm. apply shr_1_double, H.
Qed.

Lemma digits2_double (p : positive) : Zdigits2 (2 * Zpos p) = Zdigits2 (Zpos p) + 1.
Proof.
  change (2 * Zpos p) with (Zpos (xO p)). unfold Zdigits2.
  change (digits2_pos p~0) with (Pos.succ (digits2_pos p)). lia.
Qed.

Lemma digits2_pow2 (p : positive) (n : Z) :
  0 <= n -> Zdigits2 (Zpos p * 2 ^ n) = Zdigits2 (Zpos p) + n.
Proof.
  intro H. revert p. pattern n. apply natlike_ind; [| |exact H].
  - intro p. rewrite Z.mul_1_r. lia.
  - intros x Hx IH p. rewrite Z.pow_succ_r by lia.
    replace (Zpos p * (2 * 2 ^ x)) with (Zpos (xO p) * 2 ^ x) by lia.
    rewrite IH. change (Zpos p~0) with (2 * Zpos p). rewrite digits2_double. lia.
Qed.

Lemma pos_pow2 (p : positive) (n : Z) : 0 <= n -> exists q, Zpos p * 2 ^ n = Zpos q.
Proof.
  intro H. assert (0 < Zpos p * 2 ^ n) by (apply Z.mul_pos_pos; [lia|apply Z.pow_pos_nonneg; lia]).
  destruct (Zpos p * 2 ^ n) as [|q|q]; try lia. now exists q.
Qed.

(** Rounding a number that is already representable. *)
Lemma binary_round_aux_exact (s : bool) (q : positive) (ex n : Z) :
  0 <= n ->
  fexp PyFloat.prec PyFloat.emax (Zdigits2 (Zpos q) + n + ex) = ex + n ->
  binary_round_aux PyFloat.prec PyFloat.emax s (Zpos q * 2 ^ n) ex loc_Exact =
  if (ex + n <=? PyFloat.emax - PyFloat.prec)%Z then S754_finite s q (ex + n) else S754_infinity s.
Proof.
  intros Hn Hf. unfold binary_round_aux.
  assert (E1 : shr_fexp PyFloat.prec PyFloat.emax (Zpos q * 2 ^ n) ex loc_Exact = (rec0 (Zpos q), ex + n)).
  { unfold shr_fexp. rewrite digits2_pow2 by exact Hn. rewrite Hf.
    replace (ex + n - ex) with n by lia.
    change (shr_record_of_loc (Zpos q * 2 ^ n) loc_Exact) with (rec0 (Zpos q * 2 ^ n)).
    unfold shr. destruct n as [|p|p]; [|rewrite iter_shr_exact by lia; reflexivity|lia].
    rewrite Z.mul_1_r, Z.add_0_r. reflexivity. }
  rewrite E1. simpl shr_m. simpl loc_of_shr_record. simpl round_nearest_even.
  assert (E2 : shr_fexp PyFloat.prec PyFloat.emax (Zpos q) (ex + n) loc_Exact = (rec0 (Zpos q), ex + n)).
  { unfold shr_fexp. replace (Zdigits2 (Zpos q) + (ex + n)) with (Zdigits2 (Zpos q) + n + ex) by lia.
    rewrite Hf, Z.sub_diag. reflexivity. }
  rewrite E2. reflexivity.
Qed.

Lemma fexp_unfold (x : Z) : fexp PyFloat.prec PyFloat.emax x = Z.max (x - 53) (-1074).
Proof. reflexivity. Qed.

Lemma mul_f1024 (s : bool) (m : positive) (e : Z) :
  canonical_mantissa PyFloat.prec PyFloat.emax m e = true ->
  exists j q,
    0 <= j <= 10 /\ Zpos q = Zpos m * 2 ^ j /\
    canonical_mantissa PyFloat.prec PyFloat.emax q (e + 10 - j) = true /\
    e + 10 - j = fexp PyFloat.prec PyFloat.emax (Zpos (digits2_pos m) + e + 10) /\
    SFmul PyFloat.prec PyFloat.emax (S754_finite s m e)
          (S754_finite false 4503599627370496 (-42)) =
    if (e + 10 - j <=? PyFloat.emax - PyFloat.prec)%Z then S754_finite s q (e + 10 - j)
    else S754_infinity s.
Proof.
  unfold canonical_mantissa. intro C. apply Z.eqb_eq in C.
  rewrite fexp_unfold in C.
  set (D := Zpos (digits2_pos m)) in *.
  set (e' := fexp PyFloat.prec PyFloat.emax (D + e + 10)).
  assert (He' : e <= e' <= e + 10) by (unfold e'; rewrite fexp_unfold; lia).
  set (j := e + 10 - e').
  destruct (pos_pow2 m j) as [q Hq]; [unfold j; lia|].
  exists j, q.
  assert (Dq : Zdigits2 (Zpos q) = D + j).
  { rewrite <- Hq, digits2_pow2 by (unfold j; lia). reflexivity. }
  repeat split; try (unfold j; lia).
  - symmetry. exact Hq.
  - apply Z.eqb_eq. change (Zpos (digits2_pos q)) with (Zdigits2 (Zpos q)).
    rewrite Dq. replace (D + j + (e + 10 - j)) with (D + e + 10) by lia.
    fold e'. unfold j. lia.
  - unfold SFmul. rewrite xorb_false_r.
    replace (Zpos (m * 4503599627370496)) with (Zpos q * 2 ^ (52 - j)).
    + replace (e + 10 - j) with (e + -42 + (52 - j)) by lia.
      apply binary_round_aux_exact; [unfold j; lia|].
      rewrite Dq. replace (D + j + (52 - j) + (e + -42)) with (D + e + 10) by lia.
      fold e'. unfold j. lia.
    + rewrite <- Hq, <- Z.mul_assoc, <- Z.pow_add_r by (unfold j; lia).
      replace (j + (52 - j)) with 52 by lia. rewrite Pos2Z.inj_mul. reflexivity.
Qed.

Lemma cond_Zopp_mul (s : bool) (a b : Z) : cond_Zopp s (a * b) = cond_Zopp s a * b.
Proof. destruct s; simpl; ring. Qed.

Lemma to_int_finite (s : bool) (m : positive) (e : Z) :
  PyFloat.to_int (S754_finite s m e) = inr (trunc_scaled s m e 1).
Proof.
  unfold PyFloat.to_int, trunc_scaled. f_equal. rewrite Z.mul_1_r.
  destruct e as [|p|p].
  - simpl. now rewrite Z.mul_1_r, Z.quot_1_r.
  - rewrite Z.shiftl_mul_pow2 by lia.
    replace (Z.max 0 (Zpos p)) with (Zpos p) by lia.
    replace (Z.max 0 (- Zpos p)) with 0 by lia.
    rewrite Z.pow_0_r, Z.quot_1_r. apply cond_Zopp_mul.
  - replace (Z.max 0 (Zneg p)) with 0 by lia.
    replace (Z.max 0 (- Zneg p)) with (Zpos p) by lia.
    rewrite Z.pow_0_r, Z.mul_1_r, Z.shiftr_div_pow2 by lia.
    assert (P : 0 < 2 ^ Zpos p) by (apply Z.pow_pos_nonneg; lia).
    destruct s; simpl.
    + change (Zneg m) with (- Zpos m). rewrite Z.quot_opp_l by lia.
      now rewrite Z.quot_div_nonneg by lia.
    + now rewrite Z.quot_div_nonneg by lia.
Qed.

Lemma quot_same_fraction (n1 d1 n2 d2 : Z) :
  0 < d1 -> 0 < d2 -> n1 * d2 = n2 * d1 -> Z.quot n1 d1 = Z.quot n2 d2.
Proof.
  intros H1 H2 E.
  rewrite <- (Z.quot_mul_cancel_r n1 d1 d2) by lia.
  rewrite E, (Z.mul_comm d1 d2). apply Z.quot_mul_cancel_r; lia.
Qed.

Lemma trunc_scaled_shift (s : bool) (m q : positive) (e j k : Z) :
  0 <= j -> 0 <= k -> Zpos q = Zpos m * 2 ^ j ->
  trunc_scaled s q (e + k - j) 1 = trunc_scaled s m e (2 ^ k).
Proof.
  intros Hj Hk Hq. unfold trunc_scaled.
  apply quot_same_fraction; try (apply Z.pow_pos_nonneg; lia).
  rewrite Hq, cond_Zopp_mul, Z.mul_1_r.
  set (a := cond_Zopp s (Zpos m)).
  transitivity (a * 2 ^ (j + Z.max 0 (e + k - j) + Z.max 0 (- e))).
  - rewrite !Z.pow_add_r by lia. ring.
  - replace (j + Z.max 0 (e + k - j) + Z.max 0 (- e))
      with (k + Z.max 0 e + Z.max 0 (- (e + k - j))) by lia.
    rewrite !Z.pow_add_r by lia. ring.
Qed.

Lemma to_int_mul_mul (s : bool) (m : positive) (e : Z) :
  canonical_mantissa PyFloat.prec PyFloat.emax m e = true ->
  PyFloat.to_int (PyFloat.mul (PyFloat.mul (S754_finite s m e) f1024) f1024) =
  if (Zpos (digits2_pos m) + e + 20 <=? 1024)%Z then inr (trunc_scaled s m e (2 ^ 20))
  else inl OverflowError.
Proof.
  intro C. unfold PyFloat.mul.
  change f1024 with (S754_finite false 4503599627370496 (-42)).
  destruct (mul_f1024 s m e C) as [j1 [q1 [Hj1 [Hq1 [C1 [E1 M1]]]]]].
  rewrite M1. rewrite fexp_unfold in E1.
  assert (Dq1 : Zpos (digits2_pos q1) = Zpos (digits2_pos m) + j1).
  { change (Zdigits2 (Zpos q1) = Zdigits2 (Zpos m) + j1).
    rewrite Hq1. apply digits2_pow2. lia. }
  destruct (e + 10 - j1 <=? PyFloat.emax - PyFloat.prec)%Z eqn:L1.
  - apply Z.leb_le in L1. unfold PyFloat.emax, PyFloat.prec in L1.
    destruct (mul_f1024 s q1 (e + 10 - j1) C1) as [j2 [q2 [Hj2 [Hq2 [C2 [E2 M2]]]]]].
    rewrite M2. rewrite fexp_unfold, Dq1 in E2.
    destruct (e + 10 - j1 + 10 - j2 <=? PyFloat.emax - PyFloat.prec)%Z eqn:L2.
    + apply Z.leb_le in L2. unfold PyFloat.emax, PyFloat.prec in L2.
      replace (Zpos (digits2_pos m) + e + 20 <=? 1024)%Z with true
        by (symmetry; apply Z.leb_le; lia).
      rewrite to_int_finite. f_equal.
      replace (e + 10 - j1 + 10 - j2) with (e + 20 - (j1 + j2)) by lia.
      apply trunc_scaled_shift; [lia|lia|].
      rewrite Hq2, Hq1, Z.pow_add_r by lia. ring.
    + apply Z.leb_gt in L2. unfold PyFloat.emax, PyFloat.prec in L2.
      replace (Zpos (digits2_pos m) + e + 20 <=? 1024)%Z with false
        by (symmetry; apply Z.leb_gt; lia).
      reflexivity.
  - apply Z.leb_gt in L1. unfold PyFloat.emax, PyFloat.prec in L1.
    replace (Zpos (digits2_pos m) + e + 20 <=? 1024)%Z with false
      by (symmetry; apply Z.leb_gt; lia).
    reflexivity.
Qed.

(** ** Floats read from text are binary64 numbers *)

Lemma digits2_log2 (p : positive) : Zdigits2 (Zpos p) = Z.log2 (Zpos p) + 1.
Proof.
  unfold Zdigits2, Z.log2. destruct p as [p|p|]; [| |reflexivity].
  - change (digits2_pos p~1) with (Pos.succ (digits2_pos p)).
    change (Pos.size p) with (digits2_pos p). lia.
  - change (digits2_pos p~0) with (Pos.succ (digits2_pos p)).
    change (Pos.size p) with (digits2_pos p). lia.
Qed.

Lemma digits2_nonneg (m : Z) : 0 <= Zdigits2 m.
Proof. destruct m; simpl; lia. Qed.

Lemma digits2_mono (a b : Z) : 0 <= a <= b -> Zdigits2 a <= Zdigits2 b.
Proof.
  intros [Ha Hab]. destruct a as [|p|p]; [apply digits2_nonneg| |lia].
  destruct b as [|q|q]; try lia.
  rewrite !digits2_log2. apply Z.add_le_mono_r, Z.log2_le_mono. lia.
Qed.

Lemma digits2_shiftr (m n : Z) :
  0 <= m -> 0 <= n -> Zdigits2 (m / 2 ^ n) = Z.max 0 (Zdigits2 m - n).
Proof.
  intros Hm Hn. destruct m as [|p|p]; [|clear Hm|lia].
  - rewrite Z.div_0_l by (apply Z.pow_nonzero; lia). simpl Zdigits2. lia.
  - rewrite <- Z.shiftr_div_pow2 by lia. rewrite (digits2_log2 p).
    destruct (Z_le_gt_dec n (Z.log2 (Zpos p))) as [Le|Gt].
    + assert (L := Z.log2_shiftr (Zpos p) n ltac:(lia)).
      assert (N : 0 <= Z.shiftr (Zpos p) n) by (apply Z.shiftr_nonneg; lia).
      destruct (Z.shiftr (Zpos p) n) as [|q|q] eqn:E; [| |lia].
      * apply Z.shiftr_eq_0_iff in E. destruct E as [E|[_ E]]; [discriminate|lia].
      * rewrite digits2_log2. lia.
    + rewrite Z.shiftr_eq_0 by lia. simpl Zdigits2. lia.
Qed.

Lemma shr_1_m (mrs : shr_record) :
  0 <= shr_m mrs -> shr_m (shr_1 mrs) = shr_m mrs / 2.
Proof.
  destruct mrs as [m r s]. simpl. intro H.
  destruct m as [|[p|p|]|p]; simpl; try reflexivity; try lia.
  - rewrite Pos2Z.inj_xI. apply Z.div_unique with 1; lia.
  - rewrite Pos2Z.inj_xO. apply Z.div_unique with 0; lia.
Qed.

Lemma iter_shr_m (n : positive) (mrs : shr_record) :
  0 <= shr_m mrs ->
  shr_m (iter_pos shr_1 n mrs) = shr_m mrs / 2 ^ Zpos n.
Proof.
  revert mrs. induction n as [n IH|n IH|]; intros mrs H.
  - change (iter_pos shr_1 n~1 mrs) with (iter_pos shr_1 n (iter_pos shr_1 n (shr_1 mrs))).
    assert (H1 : 0 <= shr_m (shr_1 mrs))
      by (rewrite shr_1_m by exact H; apply Z.div_pos; lia).
    assert (H2 : 0 <= shr_m (iter_pos shr_1 n (shr_1 mrs)))
      by (rewrite IH by exact H1; apply Z.div_pos; [exact H1|apply Z.pow_pos_nonneg; lia]).
    rewrite IH, IH, shr_1_m by assumption.
    assert (P : 0 < 2 ^ Zpos n) by (apply Z.pow_pos_nonneg; lia).
    rewrite !Z.div_div by lia.
    f_equal. assert (E : Z.pos n~1 = 1 + Z.pos n + Z.pos n) by lia.
    rewrite E, !Z.pow_add_r, Z.pow_1_r by lia. ring.
  - change (iter_pos shr_1 n~0 mrs) with (iter_pos shr_1 n (iter_pos shr_1 n mrs)).
    assert (H2 : 0 <= shr_m (iter_pos shr_1 n mrs))
      by (rewrite IH by exact H; apply Z.div_pos; [exact H|apply Z.pow_pos_nonneg; lia]).
    rewrite IH, IH by assumption.
    assert (P : 0 < 2 ^ Zpos n) by (apply Z.pow_pos_nonneg; lia).
    rewrite !Z.div_div by lia.
    f_equal. assert (E : Z.pos n~0 = Z.pos n + Z.pos n) by lia.
    rewrite E, !Z.pow_add_r by lia. ring.
  - change (iter_pos shr_1 1 mrs) with (shr_1 mrs). now rewrite shr_1_m.
Qed.

Lemma shr_record_of_loc_m (m : Z) (l : location) : shr_m (shr_record_of_loc m l) = m.
Proof. destruct l as [|[| |]]; reflexivity. Qed.

(** After [shr_fexp] the exponent is the canonical one and the significand
    fits it. *)
Lemma shr_fexp_spec (m e : Z) (l : location) :
  0 <= m -> e <= fexp PyFloat.prec PyFloat.emax (Zdigits2 m + e) ->
  exists mrs,
    shr_fexp PyFloat.prec PyFloat.emax m e l = (mrs, fexp PyFloat.prec PyFloat.emax (Zdigits2 m + e)) /\
    0 <= shr_m mrs /\
    fexp PyFloat.prec PyFloat.emax (Zdigits2 (shr_m mrs) + fexp PyFloat.prec PyFloat.emax (Zdigits2 m + e))
    = fexp PyFloat.prec PyFloat.emax (Zdigits2 m + e).
Proof.
  intros Hm He. unfold shr_fexp, shr.
  set (c := fexp PyFloat.prec PyFloat.emax (Zdigits2 m + e)) in *.
  assert (D := digits2_nonneg m).
  destruct (c - e) as [|n|n] eqn:En; [| |lia].
  - exists (shr_record_of_loc m l). rewrite shr_record_of_loc_m.
    repeat split; [f_equal; lia|exact Hm|].
    unfold c in *. rewrite !fexp_unfold in *. lia.
  - exists (iter_pos shr_1 n (shr_record_of_loc m l)).
    assert (M : shr_m (iter_pos shr_1 n (shr_record_of_loc m l)) = m / 2 ^ Zpos n)
      by (rewrite iter_shr_m; rewrite shr_record_of_loc_m; [reflexivity|exact Hm]).
    rewrite M. repeat split.
    + f_equal. lia.
    + apply Z.div_pos; [exact Hm|apply Z.pow_pos_nonneg; lia].
    + rewrite digits2_shiftr by lia. unfold c in *. rewrite !fexp_unfold in *. lia.
Qed.

Lemma round_nearest_even_bounds (m : Z) (l : location) :
  m <= round_nearest_even m l <= m + 1.
Proof.
  unfold round_nearest_even. destruct l as [|[| |]]; try lia.
  destruct (Z.even m); lia.
Qed.

Lemma fexp_mono (a b : Z) : a <= b -> fexp PyFloat.prec PyFloat.emax a <= fexp PyFloat.prec PyFloat.emax b.
Proof. rewrite !fexp_unfold. lia. Qed.

(** Rounding yields a binary64 number. *)
Lemma binary_round_aux_valid (sx : bool) (mx ex : Z) (lx : location) :
  0 <= mx -> ex <= fexp PyFloat.prec PyFloat.emax (Zdigits2 mx + ex) ->
  valid_binary PyFloat.prec PyFloat.emax (binary_round_aux PyFloat.prec PyFloat.emax sx mx ex lx) = true.
Proof.
  intros Hm He. unfold binary_round_aux.
  destruct (shr_fexp_spec mx ex lx Hm He) as [mrs [E1 [N1 C1]]].
  rewrite E1.
  set (e1 := fexp PyFloat.prec PyFloat.emax (Zdigits2 mx + ex)) in *.
  set (m2 := round_nearest_even (shr_m mrs) (loc_of_shr_record mrs)).
  assert (B := round_nearest_even_bounds (shr_m mrs) (loc_of_shr_record mrs)).
  fold m2 in B.
  assert (Hm2 : 0 <= m2) by lia.
  assert (He2 : e1 <= fexp PyFloat.prec PyFloat.emax (Zdigits2 m2 + e1)).
  { rewrite <- C1 at 1. apply fexp_mono.
    apply Z.add_le_mono_r, digits2_mono. lia. }
  destruct (shr_fexp_spec m2 e1 loc_Exact Hm2 He2) as [mrs2 [E2 [N2 C2]]].
  rewrite E2.
  destruct (shr_m mrs2) as [|m|m] eqn:M; [reflexivity| |lia].
  destruct (fexp PyFloat.prec PyFloat.emax (Zdigits2 m2 + e1) <=? PyFloat.emax - PyFloat.prec)%Z eqn:L; [|reflexivity].
  simpl. unfold bounded, canonical_mantissa. rewrite L, andb_true_r.
  apply Z.eqb_eq. exact C2.
Qed.

Lemma digits2_div (a b : Z) :
  0 < a -> 0 < b -> Zdigits2 a - Zdigits2 b <= Zdigits2 (a / b).
Proof.
  intros Ha Hb.
  destruct a as [|p|p]; try lia. destruct b as [|q|q]; try lia.
  assert (Q : 0 <= Zpos p / Zpos q) by (apply Z.div_pos; lia).
  assert (D := digits2_nonneg (Zpos p / Zpos q)).
  destruct (Z_le_gt_dec (Zdigits2 (Zpos p)) (Zdigits2 (Zpos q))) as [Le|Gt]; [lia|].
  rewrite !digits2_log2 in *.
  assert (Lp := Z.log2_spec (Zpos p) ltac:(lia)).
  assert (Lq := Z.log2_spec (Zpos q) ltac:(lia)).
  set (lp := Z.log2 (Zpos p)) in *. set (lq := Z.log2 (Zpos q)) in *.
  assert (Hq0 : 0 <= lq) by apply Z.log2_nonneg.
  (* 2^(lp - lq - 1) <= p / q *)
  assert (K : 2 ^ (lp - lq - 1) <= Zpos p / Zpos q).
  { apply Z.div_le_lower_bound; [lia|].
    apply Z.le_trans with (2 ^ lp); [|lia].
    replace lp with ((lq + 1) + (lp - lq - 1)) at 2 by lia.
    rewrite Z.pow_add_r by lia.
    apply Z.mul_le_mono_nonneg_r; [apply Z.pow_nonneg; lia|].
    replace (Z.succ lq) with (lq + 1) in Lq by lia. lia. }
  assert (P : 0 < 2 ^ (lp - lq - 1)) by (apply Z.pow_pos_nonneg; lia).
  destruct (Zpos p / Zpos q) as [|r|r] eqn:R; try lia.
  rewrite digits2_log2.
  assert (lp - lq - 1 <= Z.log2 (Zpos r)); [|lia].
  apply Z.log2_le_pow2; lia.
Qed.

Lemma SFdiv_valid (sx : bool) (mx : positive) (ex : Z) (sy : bool) (my : positive) (ey : Z) :
  valid_binary PyFloat.prec PyFloat.emax
    (SFdiv PyFloat.prec PyFloat.emax (S754_finite sx mx ex) (S754_finite sy my ey)) = true.
Proof.
  unfold SFdiv, SFdiv_core_binary.
  set (X := Zdigits2 (Zpos mx) + ex - (Zdigits2 (Zpos my) + ey)).
  set (e' := Z.min (fexp PyFloat.prec PyFloat.emax X) (ex - ey)).
  set (s := ex - ey - e').
  assert (Hs : 0 <= s) by (unfold s, e'; lia).
  set (m' := match s with Zpos _ => Z.shiftl (Zpos mx) s | Z0 => Zpos mx | Zneg _ => 0 end).
  assert (Hm' : m' = Zpos mx * 2 ^ s).
  { unfold m'. destruct s as [|p|p]; [rewrite Z.mul_1_r; reflexivity| |lia].
    apply Z.shiftl_mul_pow2. lia. }
  assert (Q := Z.div_eucl_eq m' (Zpos my) ltac:(lia)).
  assert (Dv : fst (Z.div_eucl m' (Zpos my)) = m' / Zpos my) by reflexivity.
  destruct (Z.div_eucl m' (Zpos my)) as [q r]. simpl in Dv. subst q.
  assert (P : 0 < m') by (rewrite Hm'; apply Z.mul_pos_pos; [lia|apply Z.pow_pos_nonneg; lia]).
  apply binary_round_aux_valid.
  - apply Z.div_pos; lia.
  - apply Z.le_trans with (fexp PyFloat.prec PyFloat.emax X); [unfold e'; lia|].
    apply fexp_mono.
    assert (D := digits2_div m' (Zpos my) P ltac:(lia)).
    rewrite Hm' in D at 1. rewrite digits2_pow2 in D by exact Hs.
    unfold X, s in *. lia.
Qed.

Lemma iter_xO (p d : positive) : Zpos (Pos.iter xO p d) = Zpos p * 2 ^ Zpos d.
Proof.
  induction d as [|d IH] using Pos.peano_ind.
  - simpl. lia.
  - rewrite Pos.iter_succ, Pos2Z.inj_xO, IH, Pos2Z.inj_succ, Z.pow_succ_r by lia. ring.
Qed.

Lemma binary_round_valid (sx : bool) (mx : positive) (ex : Z) :
  valid_binary PyFloat.prec PyFloat.emax (binary_round PyFloat.prec PyFloat.emax sx mx ex) = true.
Proof.
  unfold binary_round, shl_align.
  change (Zpos (digits2_pos mx)) with (Zdigits2 (Zpos mx)).
  set (c := fexp PyFloat.prec PyFloat.emax (Zdigits2 (Zpos mx) + ex)).
  destruct (c - ex) as [|d|d] eqn:E.
  - apply binary_round_aux_valid; [lia|fold c; lia].
  - apply binary_round_aux_valid; [lia|fold c; lia].
  - apply binary_round_aux_valid; [lia|].
    rewrite iter_xO, digits2_pow2 by lia.
    replace (Zdigits2 (Zpos mx) + Zpos d + c) with (Zdigits2 (Zpos mx) + ex) by lia.
    fold c. lia.
Qed.

Lemma binary_normalize_valid (m e : Z) (szero : bool) :
  valid_binary PyFloat.prec PyFloat.emax (binary_normalize PyFloat.prec PyFloat.emax m e szero) = true.
Proof.
  destruct m as [|p|p]; simpl; [reflexivity| |]; apply binary_round_valid.
Qed.

Lemma of_decimal_valid (s : bool) (m e : Z) :
  valid_binary PyFloat.prec PyFloat.emax (PyFloat.of_decimal s m e) = true.
Proof.
  unfold PyFloat.of_decimal. destruct m as [|p|p]; try reflexivity.
  destruct e as [|q|q]; try apply binary_normalize_valid. apply SFdiv_valid.
Qed.

Lemma of_text_valid (x : option string) (v : PyFloat.float) :
  PyFloat.of_text x = inr v -> valid_binary PyFloat.prec PyFloat.emax v = true.
Proof.
  unfold PyFloat.of_text, PyFloat.of_chars, PyFloat.of_ascii_chars.
  destruct x as [t|]; [|discriminate].
  destruct (PyFloat.read_sign
              (PyFloat.strip (PyFloat.to_ascii (list_ascii_of_string t))))
    as [neg body].
  destruct (_ || _)%bool; [intros [= <-]; reflexivity|].
  destruct (String.eqb _ "nan"); [intros [= <-]; reflexivity|].
  destruct (PyFloat.number body) as [[[m nf] r]|]; [|discriminate].
  destruct (PyFloat.exponent r) as [e|]; [|discriminate].
  intros [= <-]. apply of_decimal_valid.
Qed.

(** Every number read from a sensor value is a binary64 number. *)
Lemma sensor_float_valid (sensor_id : string) (w : World) (v : PyFloat.float) :
  sensor_float sensor_id w = Some v ->
  valid_binary PyFloat.prec PyFloat.emax v = true.
Proof.
  unfold sensor_float.
  destruct (tget (Some sensor_id) (table_of (shm w (clock w)))) as [r|];
    [|discriminate].
  destruct (PyFloat.of_text (value r)) as [e|x] eqn:F; [discriminate|].
  intros [= <-]. exact (of_text_valid _ _ F).
Qed.

(** ** [max] over floats without NaN *)

Lemma ltb_rank (x y : PyFloat.float) :
  PyFloat.isnan x = false -> PyFloat.isnan y = false ->
  (PyFloat.ltb x y = true <-> rank_lt (rank x) (rank y)).
Proof.
  intros Hx Hy. unfold PyFloat.ltb, SFltb.
  destruct x as [sx|sx| |sx mx ex]; try discriminate;
    destruct y as [sy|sy| |sy my ey]; try discriminate;
    try destruct sx; try destruct sy; simpl;
    try (split; [discriminate|lia]); try (split; [lia|reflexivity]).
  - (* both negative *)
    destruct (Z.compare_spec ex ey) as [E|E|E].
    + subst. rewrite Pos.compare_cont_spec. simpl.
      destruct (Pos.compare_spec mx my) as [F|F|F]; simpl;
        (split; [try discriminate; lia|try reflexivity; lia]).
    + split; [discriminate|lia].
    + split; [lia|reflexivity].
  - (* both positive *)
    destruct (Z.compare_spec ex ey) as [E|E|E].
    + subst. rewrite Pos.compare_cont_spec. simpl.
      destruct (Pos.compare_spec mx my) as [F|F|F]; simpl;
        (split; [try discriminate; lia|try reflexivity; lia]).
    + split; [lia|reflexivity].
    + split; [discriminate|lia].
Qed.

Lemma rank_lt_trans (a b c : Z * Z * Z) :
  rank_lt a b -> rank_lt b c -> rank_lt a c.
Proof.
  destruct a as [[a1 a2] a3], b as [[b1 b2] b3], c as [[c1 c2] c3].
  unfold rank_lt. lia.
Qed.

Lemma rank_lt_total (a b c : Z * Z * Z) :
  rank_lt a c -> rank_lt a b \/ rank_lt b c.
Proof.
  destruct a as [[a1 a2] a3], b as [[b1 b2] b3], c as [[c1 c2] c3].
  unfold rank_lt. lia.
Qed.

Lemma max_list_In (x : PyFloat.float) (xs : list PyFloat.float) :
  In (PyFloat.max_list x xs) (x :: xs).
Proof.
  unfold PyFloat.max_list. revert x.
  induction xs as [|y xs IH]; intro x; simpl; [auto|].
  destruct (PyFloat.ltb x y).
  - right. apply IH.
  - destruct (IH x) as [H|H]; [left; exact H|right; right; exact H].
Qed.

(** In a list without NaN, no element is greater than [max]. *)
Lemma max_list_upper (x : PyFloat.float) (xs : list PyFloat.float) :
  (forall y, In y (x :: xs) -> PyFloat.isnan y = false) ->
  forall y, In y (x :: xs) -> PyFloat.ltb (PyFloat.max_list x xs) y = false.
Proof.
  unfold PyFloat.max_list. revert x.
  induction xs as [|z xs IH]; intros x N y Hy.
  - simpl in *. destruct Hy as [<-|[]].
    destruct (PyFloat.ltb x x) eqn:E; [|reflexivity].
    apply ltb_rank in E; try (apply N; auto).
    destruct (rank x) as [[a b] c]. unfold rank_lt in E. lia.
  - assert (Nx : PyFloat.isnan x = false) by (apply N; left; reflexivity).
    assert (Nz : PyFloat.isnan z = false) by (apply N; right; left; reflexivity).
    assert (Ny : PyFloat.isnan y = false) by (apply N, Hy).
    simpl fold_left.
    destruct (PyFloat.ltb x z) eqn:E.
    + destruct Hy as [<-|Hy].
      * (* the first element is below the new maximum *)
        assert (M := IH z (fun u Hu => N u (or_intror Hu)) z (or_introl eq_refl)).
        set (r := fold_left _ xs z) in *.
        assert (Nr : PyFloat.isnan r = false).
        { apply (N r). right. apply (max_list_In z xs). }
        destruct (PyFloat.ltb r x) eqn:F; [|reflexivity].
        apply ltb_rank in E; try assumption. apply ltb_rank in F; try assumption.
        assert (G : rank_lt (rank r) (rank z)) by (eapply rank_lt_trans; eauto).
        apply ltb_rank in G; try assumption. congruence.
      * apply (IH z (fun u Hu => N u (or_intror Hu)) y Hy).
    + assert (N' : forall u, In u (x :: xs) -> PyFloat.isnan u = false).
      { intros u [<-|Hu]; [exact Nx|apply N; right; right; exact Hu]. }
      destruct Hy as [<-|[<-|Hy]].
      * apply (IH x N' x (or_introl eq_refl)).
      * (* the skipped element is not above the kept maximum *)
        assert (M := IH x N' x (or_introl eq_refl)).
        set (r := fold_left _ xs x) in *.
        assert (Nr : PyFloat.isnan r = false).
        { apply (N' r). apply (max_list_In x xs). }
        destruct (PyFloat.ltb r z) eqn:F; [|reflexivity].
        apply ltb_rank in F; try assumption.
        destruct (rank_lt_total _ (rank x) _ F) as [G|G];
          apply ltb_rank in G; try assumption; congruence.
      * apply (IH x N' y (or_intror Hy)).
Qed.

(** ** [Cpu.frequency] (C7) *)

(** C7, at the failing payload
    [<sys><id>SCC-1-1</id><label></label><value>3200</value></sys>]:
    there is no [SCPUCLK], the only record has an empty label, so no record
    has a label containing [Clock]; the scan tests [in] on the label [None]
    and [TypeError] leaves [Cpu.frequency]. *)
Theorem frequency_empty_label_raises :
  result Cpu.frequency (payload [sensor "sys" "SCC-1-1" "" "3200"]) = Raise TypeError.
Proof. reflexivity. Qed.

(** The same scan over a record with an empty id. *)
Example frequency_empty_id_raises :
  result Cpu.frequency (payload [sensor "sys" "" "CPU Clock" "3200"])
  = Raise AttributeError.
Proof. reflexivity. Qed.

(** The two payloads of the specification. *)
Example frequency_package_clock :
  result Cpu.frequency (payload [sensor "sys" "SCPUCLK" "CPU Clock" "3400"])
  = Ret (PyFloat.of_Z 3400).
Proof. reflexivity. Qed.

Example frequency_max_of_cores :
  result Cpu.frequency
    (payload [sensor "sys" "SCC-0" "CPU Core #1 Clock" "3200";
              sensor "sys" "SCC-1" "CPU Core #2 Clock" "3600"])
  = Ret (PyFloat.of_Z 3600).
Proof. reflexivity. Qed.

(** A NaN among the core clocks wins or loses by its place in the table. *)
Example frequency_nan_core_first :
  result Cpu.frequency
    (payload [sensor "sys" "SCC-0" "CPU Core #1 Clock" "nan";
              sensor "sys" "SCC-1" "CPU Core #2 Clock" "3600"])
  = Ret S754_nan.
Proof. reflexivity. Qed.

(** X10.  When [SCPUCLK] is a number (not NaN), [Cpu.frequency] answers
    it, whatever else the payload holds. *)
Lemma frequency_direct (w : World) (x : PyFloat.float) :
  sensor_float "SCPUCLK" w = Some x -> PyFloat.isnan x = false ->
  result Cpu.frequency w = Ret x.
Proof.
  intros H N. unfold result, Cpu.frequency.
  rewrite bind_get_sensor_value, H, N. reflexivity.
Qed.

Lemma core_clocks_well_labelled (d : table) (acc : list PyFloat.float) :
  well_labelled d -> core_clocks d acc = inr (acc ++ core_clock_values d).
Proof.
  revert acc. induction d as [|[k r] d IH]; intros acc W; simpl.
  - now rewrite app_nil_r.
  - assert (W' : well_labelled d) by (intros k' r' H; apply (W k' r'); now right).
    destruct (W k r (or_introl eq_refl)) as [Hk Hl].
    destruct k as [i|]; [|congruence]. destruct (label r) as [l|]; [|congruence].
    simpl. destruct (startswith i "SCC-"); simpl; [|apply IH, W'].
    destruct (contains "Clock" l); simpl; [|apply IH, W'].
    destruct (PyFloat.of_text (value r)) as [e|x] eqn:F.
    + destruct (of_text_raises _ _ F) as [-> | ->]; simpl; apply IH, W'.
    + rewrite IH by exact W'. now rewrite <- app_assoc.
Qed.

(** Without a package clock, and over a table whose records all have the
    text of an id and of a label, the answer is [max] of the collected core
    clocks, or NaN when there is none. *)
Lemma frequency_fallback (w : World) :
  sensor_float "SCPUCLK" w = None \/ sensor_float "SCPUCLK" w = Some S754_nan ->
  well_labelled (table_of (shm w (S (clock w)))) ->
  result Cpu.frequency w =
  Ret (match core_clock_values (table_of (shm w (S (clock w)))) with
       | x :: xs => PyFloat.max_list x xs
       | [] => S754_nan
       end).
Proof.
  intros H W. unfold result, Cpu.frequency. rewrite bind_get_sensor_value.
  assert (E : PyFloat.isnan
                match sensor_float "SCPUCLK" w with
                | Some x => x
                | None => math_nan
                end = true) by (destruct H as [-> | ->]; reflexivity).
  rewrite E. change (negb true) with false. cbv iota.
  destruct (read_frame w) as [F1 [_ F3]].
  rewrite bind_read, F1, F3, core_clocks_well_labelled by exact W.
  unfold bind, lift, ret. simpl.
  destruct (core_clock_values (table_of (shm w (S (clock w))))); reflexivity.
Qed.

(** X11.  Without a package clock, over a table whose records all have the
    text of an id and of a label, and when no collected core clock is NaN,
    [Cpu.frequency] answers one of the collected core clocks and none of
    them is greater. *)
Lemma frequency_fallback_max (w : World) (x : PyFloat.float) (xs : list PyFloat.float) :
  sensor_float "SCPUCLK" w = None \/ sensor_float "SCPUCLK" w = Some S754_nan ->
  well_labelled (table_of (shm w (S (clock w)))) ->
  core_clock_values (table_of (shm w (S (clock w)))) = x :: xs ->
  (forall y, In y (x :: xs) -> PyFloat.isnan y = false) ->
  exists m,
    result Cpu.frequency w = Ret m /\ In m (x :: xs) /\
    forall y, In y (x :: xs) -> PyFloat.ltb m y = false.
Proof.
  intros H W E N. exists (PyFloat.max_list x xs).
  rewrite (frequency_fallback w H W), E.
  repeat split; [apply max_list_In|apply max_list_upper, N].
Qed.

(** ** [Memory.virtual_used] (C8) *)

(** What [Memory.virtual_used] does for every payload. *)
Lemma virtual_used_spec (w : World) :
  result Memory.virtual_used w =
  match sensor_float "SUSEDMEM" w with
  | None | Some S754_nan | Some (S754_zero _) => Ret 0
  | Some (S754_infinity _) => Raise OverflowError
  | Some (S754_finite s m e) =>
      if (Zpos (digits2_pos m) + e + 20 <=? 1024)%Z
      then Ret (trunc_scaled s m e (1024 * 1024))
      else Raise OverflowError
  end.
Proof.
  assert (V := sensor_float_valid "SUSEDMEM" w).
  unfold result, Memory.virtual_used. rewrite bind_get_sensor_value.
  destruct (sensor_float "SUSEDMEM" w) as [[s|s| |s m e]|]; try reflexivity.
  specialize (V _ eq_refl). simpl in V. unfold bounded in V.
  apply andb_prop in V. destruct V as [C _].
  simpl negb. cbv iota. rewrite to_int_mul_mul by exact C.
  destruct (Zpos (digits2_pos m) + e + 20 <=? 1024)%Z; reflexivity.
Qed.

(** C8, as amended.  [Memory.virtual_used] answers 0 when [SUSEDMEM] is
    absent or its value is not the text of a number, or is NaN or zero;
    for a finite value [v] with [|v| * 1024 * 1024] below [2^1024] it
    answers [v * 1024 * 1024] with the fraction dropped (toward zero): the
    scaling itself is exact. *)
Theorem virtual_used_bytes (w : World) :
  (sensor_float "SUSEDMEM" w = None -> result Memory.virtual_used w = Ret 0) /\
  (sensor_float "SUSEDMEM" w = Some S754_nan ->
   result Memory.virtual_used w = Ret 0) /\
  (forall s, sensor_float "SUSEDMEM" w = Some (S754_zero s) ->
             result Memory.virtual_used w = Ret 0) /\
  (forall s m e,
     sensor_float "SUSEDMEM" w = Some (S754_finite s m e) ->
     Zpos (digits2_pos m) + e + 20 <= 1024 ->
     result Memory.virtual_used w = Ret (trunc_scaled s m e (1024 * 1024))).
Proof.
  rewrite virtual_used_spec. repeat split.
  - intros ->. reflexivity.
  - intros ->. reflexivity.
  - intros s ->. reflexivity.
  - intros s m e -> L. apply Z.leb_le in L. rewrite L. reflexivity.
Qed.

(** The payload of the specification: 1024 MB used is [1024 * 1024 * 1024]
    bytes. *)
Lemma virtual_used_bytes_witness :
  result Memory.virtual_used
    (payload [sensor "sys" "SUSEDMEM" "Used Memory" "1024";
              sensor "sys" "SFREEMEM" "Free Memory" "2048"])
  = Ret (1024 * 1024 * 1024).
Proof.
  apply (proj2 (proj2 (proj2 (virtual_used_bytes
           (payload [sensor "sys" "SUSEDMEM" "Used Memory" "1024";
                     sensor "sys" "SFREEMEM" "Free Memory" "2048"]))))
           false 4503599627370496%positive (-42)).
  - reflexivity.
  - simpl. lia.
Defined.

(** C8, the claim as stated fails: for [SUSEDMEM = "0.3"] the answer is
    314572, which is not the value times [1024 * 1024]. *)
Lemma virtual_used_drops_fraction :
  let w := payload [sensor "sys" "SUSEDMEM" "Used Memory" "0.3"] in
  sensor_float "SUSEDMEM" w = Some (S754_finite false 5404319552844595 (-54)) /\
  result Memory.virtual_used w = Ret 314572 /\
  exactly_scaled false 5404319552844595 (-54) (1024 * 1024) 314572 = false.
Proof. repeat split. Qed.

(** ** Sensor values written beyond ASCII *)

(** [float] reads the decimal digits of every script and drops the white
    space of [str.isspace], so such a sensor value is a number for every
    facade. *)
Example float_of_fullwidth_digits :
  PyFloat.of_text (Some fullwidth_12) = inr (PyFloat.of_Z 12).
Proof. vm_compute. reflexivity. Qed.

Example float_of_no_break_spaces :
  PyFloat.of_text (Some nbsp_1024) = inr (PyFloat.of_Z 1024).
Proof. vm_compute. reflexivity. Qed.

Example float_of_arabic_digits :
  PyFloat.of_text (Some arabic_3_5) = inr (S754_finite false 7881299347898368 (-51)).
Proof. vm_compute. reflexivity. Qed.

Example float_of_fullwidth_overflow :
  PyFloat.of_text (Some fullwidth_1e999) = inr (S754_infinity false).
Proof. vm_compute. reflexivity. Qed.

(** White space inside the number, and a letter of another script, are
    refused. *)
Example float_of_inner_space :
  PyFloat.of_text (Some (utf8 [49; 194; 160; 53]%nat)) = inl ValueError.
Proof. vm_compute. reflexivity. Qed.

Example float_of_greek_letter :
  PyFloat.of_text (Some (utf8 [49; 206; 177]%nat)) = inl ValueError.
Proof. vm_compute. reflexivity. Qed.

Example percentage_of_fullwidth_digits :
  result (Cpu.percentage (PyFloat.of_Z 1))
    (payload [sensor "sys" "SCPUUTI" "CPU Utilization" fullwidth_12])
  = Ret (PyFloat.of_Z 12).
Proof. vm_compute. reflexivity. Qed.

Example virtual_used_of_no_break_spaces :
  result Memory.virtual_used
    (payload [sensor "sys" "SUSEDMEM" "Used Memory" nbsp_1024])
  = Ret (1024 * 1024 * 1024).
Proof. vm_compute. reflexivity. Qed.

Example frequency_of_fullwidth_core_clock :
  result Cpu.frequency
    (payload [sensor "sys" "SCC-0" "CPU Core #1 Clock" fullwidth_12])
  = Ret (PyFloat.of_Z 12).
Proof. vm_compute. reflexivity. Qed.

(* ===================================================================== *)
(** * Further properties of the module                                   *)
(* ===================================================================== *)

(** ** Acquisition cycles and the cache *)

(** X1.  Every cycle is one acquisition; afterwards the validity flag is
    true exactly when that acquisition succeeded, and then the table handed
    to the caller is the cached table and nothing was logged. *)
Theorem valid_flag_tells_cache (w : World) :
  clock (snd (read_aida64_shared_memory w)) = S (clock w) /\
  _cache_valid (snd (read_aida64_shared_memory w))
  = negb (acquisition_fails (shm w (clock w))) /\
  (_cache_valid (snd (read_aida64_shared_memory w)) = true ->
   result read_aida64_shared_memory w
   = Ret (_sensor_cache (snd (read_aida64_shared_memory w))) /\
   log (snd (read_aida64_shared_memory w)) = log w).
Proof.
  unfold result. rewrite read_spec.
  destruct (shm w (clock w)) as [c|c|[root|]]; simpl; repeat split;
    intros; try discriminate.
Qed.

Lemma cycles_snoc (n : nat) (w : World) :
  cycles (S n) w = snd (read_aida64_shared_memory (cycles n w)).
Proof.
  revert w. induction n as [|n IH]; intro w; [reflexivity|].
  change (cycles (S (S n)) w) with (cycles (S n) (snd (read_aida64_shared_memory w))).
  rewrite IH. reflexivity.
Qed.

Lemma cycles_frame (n : nat) (w : World) :
  shm (cycles n w) = shm w /\ psutil (cycles n w) = psutil w /\
  clock (cycles n w) = (clock w + n)%nat.
Proof.
  induction n as [|n IH]; [repeat split; simpl; lia|].
  rewrite cycles_snoc. destruct IH as [I1 [I2 I3]].
  destruct (read_frame (cycles n w)) as [F1 [F2 F3]].
  repeat split; [congruence|congruence|lia].
Qed.

(** X2.  After any number of cycles, from any state: the cache holds the
    table of the latest acquisition that succeeded (what it held before when
    none did), the log has grown by the causes of the failed ones in order,
    and the validity flag tells whether the last acquisition succeeded. *)
Theorem cache_after_cycles (n : nat) (w : World) :
  _sensor_cache (cycles n w) = latest_table (shm w) (clock w) n (_sensor_cache w) /\
  log (cycles n w) = log w ++ failures (shm w) (clock w) n /\
  _cache_valid (cycles n w) =
    match n with
    | O => _cache_valid w
    | S k => negb (acquisition_fails (shm w (clock w + k)%nat))
    end.
Proof.
  induction n as [|n IH].
  - simpl. rewrite app_nil_r. auto.
  - destruct IH as [I1 [I2 _]].
    destruct (cycles_frame n w) as [F1 [_ F3]].
    rewrite cycles_snoc, read_spec, F1, F3. simpl latest_table. simpl failures.
    destruct (shm w (clock w + n)%nat) as [c|c|[root|]]; simpl;
      rewrite ?I1, ?I2, ?app_nil_r, ?app_assoc; auto.
Qed.

(** ** The parsed table *)

Lemma last_with_In (k : key) (l : list (key * SensorRecord)) (r : SensorRecord) :
  last_with k l = Some r -> In (k, r) l.
Proof.
  induction l as [|[k0 r0] l IH]; [discriminate|].
  rewrite last_with_cons. simpl.
  destruct (last_with k l) as [r'|].
  - intros [= ->]. right. now apply IH.
  - destruct (key_eqb k k0) eqn:E; [|discriminate].
    apply key_eqb_eq in E. subst. intros [= ->]. now left.
Qed.

Lemma tget_of_In (k : key) (r : SensorRecord) (d : table) :
  NoDup (PyDict.keys d) -> In (k, r) d -> tget k d = Some r.
Proof.
  unfold tget, PyDict.keys.
  induction d as [|[k0 r0] d IH]; simpl; intros N H; [destruct H|].
  inversion N as [|? ? Hn N']; subst.
  destruct H as [[= -> ->]|H].
  - now rewrite key_eqb_refl.
  - destruct (key_eqb k k0) eqn:E; [|now apply IH].
    apply key_eqb_eq in E. subst. exfalso. apply Hn.
    change k0 with (fst (k0, r)). now apply in_map.
Qed.

(** X3.  Every entry of the parsed table comes from the payload: its type
    is one of the five categories and is the tag of a child of the root
    that has [id], [label] and [value] children, whose texts are the key,
    the label and the value of the entry. *)
Theorem parse_sound (root : Element) (k : key) (r : SensorRecord) :
  In (k, r) (parse root) ->
  In (type r) categories /\
  exists e,
    In e (children root) /\ tag e = type r /\
    exists id_elem label_elem value_elem,
      find "id" e = Some id_elem /\ find "label" e = Some label_elem /\
      find "value" e = Some value_elem /\
      k = text id_elem /\ label r = text label_elem /\ value r = text value_elem.
Proof.
  intro H.
  assert (N : NoDup (PyDict.keys (parse root)))
    by (rewrite parse_visited; apply NoDup_keys_fold; constructor).
  apply (tget_of_In k r _ N) in H.
  rewrite parse_visited, tget_fold in H. simpl in H.
  destruct (last_with k (visited root)) as [r'|] eqn:L; [|discriminate].
  injection H as ->. apply last_with_In in L.
  apply (Permutation_in _ (visited_perm root)) in L.
  assert (C := valid_records_category root _ L). simpl in C.
  split.
  { unfold is_category in C. apply existsb_exists in C.
    destruct C as [u [Hu Eu]]. apply String.eqb_eq in Eu. now subst. }
  unfold valid_records in L. apply in_flat_map in L. destruct L as [e [He L]].
  exists e. split; [exact He|].
  unfold doc_record in L. destruct (is_category (tag e)); [|destruct L].
  unfold record_of in L.
  destruct (find "id" e) as [i|]; [|destruct L].
  destruct (find "label" e) as [l|]; [|destruct L].
  destruct (find "value" e) as [v|]; [|destruct L].
  simpl in L. destruct L as [[= <- <-]|[]]. simpl.
  split; [reflexivity|]. exists i, l, v. repeat split.
Qed.

(** X4.  The table depends on the valid records of the payload alone, in
    their order: children with other tags, incomplete records, further
    children of a record and the root's own tag and text change nothing. *)
Theorem parse_reads_valid_records_only (root root' : Element) :
  valid_records root = valid_records root' -> parse root = parse root'.
Proof.
  intro H. rewrite !parse_visited, !visited_by_type, H. reflexivity.
Qed.

(** ** The two getters *)

Lemma clock_read (w : World) :
  clock (snd (read_aida64_shared_memory w)) = S (clock w).
Proof. apply read_frame. Qed.

(** X6.  [get_sensor_string] never raises.  It answers the default when
    the id is absent, the text of the value when there is one, and the
    string ["None"] (not the default) when the value element is empty; when
    [get_sensor_value] reads a number for the id, the string is the text
    that number was read from. *)
Theorem get_sensor_string_text (w : World) (sensor_id default_value : string) :
  exists s,
    result (get_sensor_string sensor_id default_value) w = Ret s /\
    (tget (Some sensor_id) (table_of (shm w (clock w))) = None ->
     s = default_value) /\
    (forall r, tget (Some sensor_id) (table_of (shm w (clock w))) = Some r ->
               s = match value r with Some t => t | None => "None" end) /\
    (forall x, sensor_float sensor_id w = Some x ->
               PyFloat.of_text (Some s) = inr x).
Proof.
  unfold result. rewrite get_sensor_string_spec. unfold sensor_float.
  destruct (tget (Some sensor_id) (table_of (shm w (clock w)))) as [r|].
  - exists (py_str (value r)). repeat split; try discriminate.
    + intros r' [= <-]. reflexivity.
    + intro x. destruct (PyFloat.of_text (value r)) as [e|y] eqn:F;
        [discriminate|]. intros [= <-].
      destruct (value r) as [t|]; [exact F|discriminate].
  - exists default_value. repeat split; try discriminate.
Qed.

(** ** Acquisitions per query *)

Lemma clock_get_sensor_value (sensor_id : string) (d : PyFloat.float) (w : World) :
  clock (snd (get_sensor_value sensor_id d w)) = S (clock w).
Proof. rewrite get_sensor_value_spec. apply clock_read. Qed.

Lemma clock_get_sensor_string (sensor_id d : string) (w : World) :
  clock (snd (get_sensor_string sensor_id d w)) = S (clock w).
Proof. rewrite get_sensor_string_spec. apply clock_read. Qed.

(** X7.  A query never rewinds the acquisition count and makes at most
    [max_cycles] acquisitions: none for the storage and network queries,
    [Gpu.fps] and [Gpu.frequency], at most two for [Cpu.frequency], three
    for [Cpu.temperature] and [Gpu.stats], one for the others. *)
Theorem acquisitions_bounded {A} (q : query A) (w : World) :
  (clock w <= clock (snd (resolve q w)) <= clock w + max_cycles q)%nat.
Proof.
  destruct q; simpl;
    unfold Cpu.percentage, Cpu.voltage, Cpu.power, Gpu.fps, Gpu.frequency,
      Gpu.voltage, Gpu.power, Memory.swap_percent, Memory.virtual_percent;
    try solve [rewrite clock_get_sensor_value; lia];
    try solve [rewrite clock_get_sensor_string; lia];
    try solve [simpl; lia].
  - (* Cpu.frequency *)
    unfold Cpu.frequency. rewrite bind_get_sensor_value.
    destruct (negb _); [simpl; rewrite clock_read; lia|].
    rewrite bind_read. unfold bind, lift.
    match goal with
    | |- context [core_clocks ?a ?b] => destruct (core_clocks a b) as [e|[|x xs]]
    end; simpl; rewrite !clock_read; lia.
  - (* Cpu.load *)
    unfold Cpu.load, try_except, Cpu.psutil_getloadavg.
    destruct (getloadavg (psutil w)); simpl; [lia|].
    rewrite bind_get_sensor_value.
    destruct (negb _); unfold bind, lift; simpl; rewrite clock_read; lia.
  - (* Cpu.temperature *)
    unfold Cpu.temperature. rewrite bind_get_sensor_value.
    destruct (negb _); [simpl; rewrite clock_read; lia|].
    rewrite bind_get_sensor_value.
    destruct (negb _); [simpl; rewrite !clock_read; lia|].
    rewrite clock_get_sensor_value, !clock_read. lia.
  - (* Cpu.fan_percent *)
    unfold Cpu.fan_percent. rewrite bind_get_sensor_value.
    destruct (negb _); unfold bind, lift; simpl; rewrite clock_read; lia.
  - (* Gpu.stats *)
    unfold Gpu.stats. rewrite !bind_get_sensor_value.
    destruct (negb _ && negb _)%bool; [|simpl; rewrite !clock_read; lia].
    unfold bind, lift.
    match goal with |- context [PyFloat.div ?a ?b] => destruct (PyFloat.div a b) end;
      simpl; rewrite !clock_read; lia.
  - (* Gpu.fan_percent *)
    unfold Gpu.fan_percent. rewrite bind_get_sensor_value.
    destruct (negb _); unfold bind, lift; simpl; rewrite clock_read; lia.
  - (* Gpu.is_available *)
    unfold Gpu.is_available. rewrite bind_get_sensor_value. simpl.
    rewrite clock_read. lia.
  - (* Memory.virtual_used *)
    unfold Memory.virtual_used. rewrite bind_get_sensor_value.
    destruct (negb _); [|simpl; rewrite clock_read; lia].
    unfold lift.
    match goal with |- context [PyFloat.to_int ?a] => destruct (PyFloat.to_int a) end;
      simpl; rewrite clock_read; lia.
  - (* Memory.virtual_free *)
    unfold Memory.virtual_free. rewrite bind_get_sensor_value.
    destruct (negb _); [|simpl; rewrite clock_read; lia].
    unfold lift.
    match goal with |- context [PyFloat.to_int ?a] => destruct (PyFloat.to_int a) end;
      simpl; rewrite clock_read; lia.
  - unfold Disk.disk_usage_percent, try_except_all, bind, psutil_disk_usage.
    destruct (disk_usage (psutil w)); simpl; lia.
  - unfold Disk.disk_used, try_except_all, bind, psutil_disk_usage.
    destruct (disk_usage (psutil w)); simpl; lia.
  - unfold Disk.disk_free, try_except_all, bind, psutil_disk_usage.
    destruct (disk_usage (psutil w)); simpl; lia.
  - unfold Net.stats, try_except_all, bind, psutil_net_io_counters.
    destruct (net_io_counters (psutil w)) as [l|]; simpl; [|lia].
    destruct (PyDict.get String.eqb if_name l); simpl; lia.
Qed.

(** ** Floats: rounding never yields NaN *)

Lemma shr_fexp_nonneg (m e : Z) (l : location) :
  0 <= m -> 0 <= shr_m (fst (shr_fexp PyFloat.prec PyFloat.emax m e l)).
Proof.
  intro H. unfold shr_fexp, shr.
  destruct (fexp PyFloat.prec PyFloat.emax (Zdigits2 m + e) - e) as [|n|n];
    simpl; rewrite ?iter_shr_m, ?shr_record_of_loc_m;
    rewrite ?shr_record_of_loc_m; try exact H.
  apply Z.div_pos; [exact H|apply Z.pow_pos_nonneg; lia].
Qed.

Lemma binary_round_aux_not_nan (sx : bool) (mx ex : Z) (lx : location) :
  0 <= mx ->
  PyFloat.isnan (binary_round_aux PyFloat.prec PyFloat.emax sx mx ex lx) = false.
Proof.
  intro H. unfold binary_round_aux.
  assert (N1 := shr_fexp_nonneg mx ex lx H).
  destruct (shr_fexp PyFloat.prec PyFloat.emax mx ex lx) as [mrs e1]. simpl in N1.
  assert (B := round_nearest_even_bounds (shr_m mrs) (loc_of_shr_record mrs)).
  set (m2 := round_nearest_even (shr_m mrs) (loc_of_shr_record mrs)) in *.
  assert (N2 := shr_fexp_nonneg m2 e1 loc_Exact ltac:(lia)).
  destruct (shr_fexp PyFloat.prec PyFloat.emax m2 e1 loc_Exact) as [mrs2 e2].
  simpl in N2.
  destruct (shr_m mrs2) as [|p|p]; [reflexivity| |lia].
  destruct (e2 <=? PyFloat.emax - PyFloat.prec)%Z; reflexivity.
Qed.

Lemma SFdiv_finite_not_nan (x : PyFloat.float) (sy : bool) (my : positive) (ey : Z) :
  PyFloat.isnan x = false ->
  PyFloat.isnan (SFdiv PyFloat.prec PyFloat.emax x (S754_finite sy my ey)) = false.
Proof.
  destruct x as [s|s| |s m e]; try reflexivity; try discriminate. intros _.
  unfold SFdiv, SFdiv_core_binary.
  set (s' := (e - ey - _)%Z).
  set (m' := match s' with Zpos _ => Z.shiftl (Zpos m) s' | Z0 => Zpos m | Zneg _ => 0 end).
  assert (P : 0 <= m').
  { unfold m'. destruct s'; try lia. apply Z.shiftl_nonneg. lia. }
  assert (Dv : fst (Z.div_eucl m' (Zpos my)) = m' / Zpos my) by reflexivity.
  destruct (Z.div_eucl m' (Zpos my)) as [q r]. simpl in Dv. subst q.
  apply binary_round_aux_not_nan. apply Z.div_pos; lia.
Qed.

Lemma SFmul_finite_not_nan (x : PyFloat.float) (sy : bool) (my : positive) (ey : Z) :
  PyFloat.isnan x = false ->
  PyFloat.isnan (SFmul PyFloat.prec PyFloat.emax x (S754_finite sy my ey)) = false.
Proof.
  destruct x as [s|s| |s m e]; try reflexivity; try discriminate. intros _.
  unfold SFmul. apply binary_round_aux_not_nan. lia.
Qed.

Lemma ltb_f100_min2 (y : PyFloat.float) :
  PyFloat.isnan y = false -> PyFloat.ltb f100 (PyFloat.min2 f100 y) = false.
Proof.
  intro N. unfold PyFloat.min2. destruct (PyFloat.ltb y f100) eqn:E; [|reflexivity].
  destruct (PyFloat.ltb f100 y) eqn:F; [|reflexivity].
  apply ltb_rank in E; [|exact N|reflexivity].
  apply ltb_rank in F; [|reflexivity|exact N].
  destruct (rank y) as [[a b] c]. simpl in E, F. unfold rank_lt in *. simpl in *. lia.
Qed.

Lemma isnan_min2_f100 (y : PyFloat.float) :
  PyFloat.isnan y = false -> PyFloat.isnan (PyFloat.min2 f100 y) = false.
Proof.
  intro N. unfold PyFloat.min2. destruct (PyFloat.ltb y f100); [exact N|reflexivity].
Qed.

(** The percentage of a fan from its speed [x] and the assumed top speed. *)
Lemma fan_scaling (x : PyFloat.float) (top : Z) (m : positive) (e : Z) :
  PyFloat.of_Z top = S754_finite false m e ->
  PyFloat.isnan x = false ->
  exists r,
    bind (lift (PyFloat.div x (PyFloat.of_Z top)))
         (fun q => ret (PyFloat.min2 f100 (PyFloat.mul q f100)))
    = ret r /\
    PyFloat.isnan r = false /\ PyFloat.ltb f100 r = false.
Proof.
  intros T N. rewrite T. unfold PyFloat.div. simpl PyFloat.is_zero. cbv iota.
  eexists. split; [reflexivity|].
  assert (Q : PyFloat.isnan
                (PyFloat.mul (SFdiv PyFloat.prec PyFloat.emax x (S754_finite false m e))
                   f100) = false).
  { unfold PyFloat.mul. change f100 with (S754_finite false 7036874417766400 (-46)).
    apply SFmul_finite_not_nan, SFdiv_finite_not_nan, N. }
  split; [apply isnan_min2_f100, Q|apply ltb_f100_min2, Q].
Qed.

(** ** The processor facade *)

Lemma sensor_or_nan_unchanged (a : Acquisition) (w w' : World) (sensor_id : string) :
  unchanged a w -> unchanged a w' ->
  sensor_or_nan sensor_id w' = sensor_or_nan sensor_id w.
Proof.
  intros U U'. unfold sensor_or_nan.
  now rewrite (sensor_float_unchanged a w w' sensor_id U U').
Qed.

Lemma bind_get_sensor_value_nan {B} (sensor_id : string) (k : PyFloat.float -> M B)
  (w : World) :
  bind (get_sensor_value sensor_id math_nan) k w =
  k (sensor_or_nan sensor_id w) (snd (read_aida64_shared_memory w)).
Proof. apply bind_get_sensor_value. Qed.

(** X12.  In front of an unchanging payload [Cpu.temperature] answers the
    package temperature [TCPUPKG] when it is a number, else the cores'
    [TCPUIAC] when that is a number, else whatever [TCPU] gives (NaN
    without one). *)
Theorem temperature_priority (a : Acquisition) (w : World) :
  unchanged a w ->
  result Cpu.temperature w =
  Ret (if negb (PyFloat.isnan (sensor_or_nan "TCPUPKG" w))
       then sensor_or_nan "TCPUPKG" w
       else if negb (PyFloat.isnan (sensor_or_nan "TCPUIAC" w))
            then sensor_or_nan "TCPUIAC" w
            else sensor_or_nan "TCPU" w).
Proof.
  intro U.
  assert (U1 := unchanged_read a w U).
  assert (U2 := unchanged_read a _ U1).
  unfold result, Cpu.temperature. rewrite bind_get_sensor_value_nan.
  destruct (negb (PyFloat.isnan (sensor_or_nan "TCPUPKG" w))); [reflexivity|].
  rewrite bind_get_sensor_value_nan.
  rewrite (sensor_or_nan_unchanged a w _ "TCPUIAC" U U1).
  destruct (negb (PyFloat.isnan (sensor_or_nan "TCPUIAC" w))); [reflexivity|].
  rewrite get_sensor_value_spec. cbn [fst].
  now rewrite (sensor_float_unchanged a w _ "TCPU" U U2).
Qed.

(** X13.  [Cpu.fan_percent] and [Gpu.fan_percent] never raise and never
    answer more than 100; the answer is NaN exactly when the fan sensor
    ([FCPU], [FGPU1]) is absent, not a number or NaN. *)
Theorem fan_percent_clamped (w : World) (fan_name : option string) :
  (exists r,
     result (Cpu.fan_percent fan_name) w = Ret r /\
     PyFloat.isnan r = PyFloat.isnan (sensor_or_nan "FCPU" w) /\
     PyFloat.ltb f100 r = false) /\
  (exists r,
     result Gpu.fan_percent w = Ret r /\
     PyFloat.isnan r = PyFloat.isnan (sensor_or_nan "FGPU1" w) /\
     PyFloat.ltb f100 r = false).
Proof.
  split.
  - unfold result, Cpu.fan_percent. rewrite bind_get_sensor_value_nan.
    destruct (PyFloat.isnan (sensor_or_nan "FCPU" w)) eqn:N; simpl negb; cbv iota.
    + exists math_nan. repeat split.
    + destruct (fan_scaling (sensor_or_nan "FCPU" w) 2000 _ _ eq_refl N)
        as [r [E [Nr L]]].
      exists r. rewrite E. repeat split; assumption.
  - unfold result, Gpu.fan_percent. rewrite bind_get_sensor_value_nan.
    destruct (PyFloat.isnan (sensor_or_nan "FGPU1" w)) eqn:N; simpl negb; cbv iota.
    + exists math_nan. repeat split.
    + destruct (fan_scaling (sensor_or_nan "FGPU1" w) 3000 _ _ eq_refl N)
        as [r [E [Nr L]]].
      exists r. rewrite E. repeat split; assumption.
Qed.

Lemma load_without_getloadavg (w : World) :
  getloadavg (psutil w) = None ->
  result Cpu.load w =
  Ret (if PyFloat.isnan (sensor_or_nan "SCPUUTI" w)
       then (S754_nan, S754_nan, S754_nan)
       else let load_val :=
              SFdiv PyFloat.prec PyFloat.emax (sensor_or_nan "SCPUUTI" w) f100 in
            (load_val, load_val, load_val)).
Proof.
  intro L. unfold result, Cpu.load, try_except, Cpu.psutil_getloadavg.
  rewrite L. simpl. rewrite bind_get_sensor_value_nan.
  destruct (PyFloat.isnan (sensor_or_nan "SCPUUTI" w)); reflexivity.
Qed.

(** X14.  With [psutil.getloadavg] at hand, [Cpu.load] hands its triple
    back and makes no acquisition.  Without it, the three loads are the
    same number, the [SCPUUTI] value divided by 100, or three NaN when that
    sensor gives no number. *)
Theorem load_spec (w : World) :
  match getloadavg (psutil w) with
  | Some t => Cpu.load w = (Ret t, w)
  | None =>
      result Cpu.load w =
      Ret (if PyFloat.isnan (sensor_or_nan "SCPUUTI" w)
           then (S754_nan, S754_nan, S754_nan)
           else let load_val :=
                  SFdiv PyFloat.prec PyFloat.emax (sensor_or_nan "SCPUUTI" w) f100 in
                (load_val, load_val, load_val))
  end.
Proof.
  destruct (getloadavg (psutil w)) eqn:L.
  - unfold Cpu.load, try_except, Cpu.psutil_getloadavg. now rewrite L.
  - now apply load_without_getloadavg.
Qed.

(** ** The graphics facade *)

(** X16.  In front of an unchanging payload [Gpu.is_available] tells
    whether [TGPU1] is a number; whenever [Gpu.stats] answers, its load is
    NaN, its temperature is that sensor, its used memory is [SUSEDVMEM],
    and [Gpu.is_available] is true exactly when the temperature of the
    tuple is a number. *)
Theorem is_available_matches_stats (a : Acquisition) (w : World) :
  unchanged a w ->
  result Gpu.is_available w
  = Ret (negb (PyFloat.isnan (sensor_or_nan "TGPU1" w))) /\
  (forall load used_percent used_mem total_mem temp,
     result Gpu.stats w = Ret (load, used_percent, used_mem, total_mem, temp) ->
     load = S754_nan /\
     temp = sensor_or_nan "TGPU1" w /\
     used_mem = sensor_or_nan "SUSEDVMEM" w /\
     result Gpu.is_available w = Ret (negb (PyFloat.isnan temp))).
Proof.
  intro U.
  assert (U1 := unchanged_read a w U).
  assert (U2 := unchanged_read a _ U1).
  assert (A : result Gpu.is_available w
              = Ret (negb (PyFloat.isnan (sensor_or_nan "TGPU1" w)))).
  { unfold result, Gpu.is_available. now rewrite bind_get_sensor_value_nan. }
  split; [exact A|].
  intros l p u t temp H. rewrite A. unfold result, Gpu.stats in H.
  rewrite !bind_get_sensor_value_nan in H.
  rewrite (sensor_or_nan_unchanged a w _ "SFREEVMEM" U U2) in H.
  rewrite (sensor_or_nan_unchanged a w _ "SUSEDVMEM" U U1) in H.
  destruct (negb _ && negb _)%bool.
  - unfold bind, lift, PyFloat.div in H.
    destruct (PyFloat.is_zero _); simpl in H; [discriminate|].
    injection H as <- <- <- <- <-. repeat split.
  - simpl in H. injection H as <- <- <- <- <-. repeat split.
Qed.

(** ** The memory facade *)

Lemma virtual_free_spec (w : World) :
  result Memory.virtual_free w =
  match sensor_float "SFREEMEM" w with
  | None | Some S754_nan | Some (S754_zero _) => Ret 0
  | Some (S754_infinity _) => Raise OverflowError
  | Some (S754_finite s m e) =>
      if (Zpos (digits2_pos m) + e + 20 <=? 1024)%Z
      then Ret (trunc_scaled s m e (1024 * 1024))
      else Raise OverflowError
  end.
Proof.
  assert (V := sensor_float_valid "SFREEMEM" w).
  unfold result, Memory.virtual_free. rewrite bind_get_sensor_value.
  destruct (sensor_float "SFREEMEM" w) as [[s|s| |s m e]|]; try reflexivity.
  specialize (V _ eq_refl). simpl in V. unfold bounded in V.
  apply andb_prop in V. destruct V as [C _].
  simpl negb. cbv iota. rewrite to_int_mul_mul by exact C.
  destruct (Zpos (digits2_pos m) + e + 20 <=? 1024)%Z; reflexivity.
Qed.

(** X17.  [Memory.virtual_free] answers 0 when [SFREEMEM] is absent, not a
    number, NaN or zero; for a finite value [v] with [|v| * 1024 * 1024]
    below [2^1024] it answers [v * 1024 * 1024] truncated toward zero; for a
    larger finite value or an infinity, [int()] raises [OverflowError]. *)
Theorem virtual_free_bytes (w : World) :
  (sensor_float "SFREEMEM" w = None \/ sensor_float "SFREEMEM" w = Some S754_nan ->
   result Memory.virtual_free w = Ret 0) /\
  (forall s, sensor_float "SFREEMEM" w = Some (S754_zero s) ->
             result Memory.virtual_free w = Ret 0) /\
  (forall s m e,
     sensor_float "SFREEMEM" w = Some (S754_finite s m e) ->
     Zpos (digits2_pos m) + e + 20 <= 1024 ->
     result Memory.virtual_free w = Ret (trunc_scaled s m e (1024 * 1024))) /\
  (forall s m e,
     sensor_float "SFREEMEM" w = Some (S754_finite s m e) ->
     1024 < Zpos (digits2_pos m) + e + 20 ->
     result Memory.virtual_free w = Raise OverflowError) /\
  (forall s, sensor_float "SFREEMEM" w = Some (S754_infinity s) ->
             result Memory.virtual_free w = Raise OverflowError).
Proof.
  rewrite virtual_free_spec. repeat split.
  - intros [-> | ->]; reflexivity.
  - intros s ->. reflexivity.
  - intros s m e -> L. apply Z.leb_le in L. now rewrite L.
  - intros s m e -> L. apply Z.leb_gt in L. now rewrite L.
  - intros s ->. reflexivity.
Qed.

Lemma trunc_scaled_bounds (s : bool) (m : positive) (e k : Z) :
  0 <= k ->
  exists n,
    trunc_scaled s m e k = cond_Zopp s n /\ 0 <= n /\
    n * 2 ^ Z.max 0 (- e) <= Zpos m * k * 2 ^ Z.max 0 e
    < (n + 1) * 2 ^ Z.max 0 (- e).
Proof.
  intro Hk. unfold trunc_scaled.
  set (D := 2 ^ Z.max 0 (- e)). set (N := Zpos m * k * 2 ^ Z.max 0 e).
  assert (PD : 0 < D) by (apply Z.pow_pos_nonneg; lia).
  assert (PN : 0 <= N).
  { unfold N. apply Z.mul_nonneg_nonneg; [apply Z.mul_nonneg_nonneg; lia|].
    apply Z.pow_nonneg. lia. }
  exists (N / D). split; [|split].
  - destruct s.
    + replace (cond_Zopp true (Zpos m) * k * 2 ^ Z.max 0 e) with (- N)
        by (unfold N, cond_Zopp; ring).
      rewrite Z.quot_opp_l by lia. rewrite Z.quot_div_nonneg by lia. reflexivity.
    + replace (cond_Zopp false (Zpos m) * k * 2 ^ Z.max 0 e) with N
        by (unfold N, cond_Zopp; ring).
      rewrite Z.quot_div_nonneg by lia. reflexivity.
  - apply Z.div_pos; lia.
  - assert (M := Z.mul_div_le N D PD).
    assert (G := Z.mul_succ_div_gt N D PD). lia.
Qed.

(** X18.  A byte count answered by [Memory.virtual_used] or
    [Memory.virtual_free] for a finite value [(-1)^s * m * 2^e] has the sign
    of the value and is short of [m * 2^e * 1024 * 1024] by less than one
    byte in magnitude, never above it. *)
Theorem bytes_are_truncated (w : World) (s : bool) (m : positive) (e n : Z) :
  (sensor_float "SUSEDMEM" w = Some (S754_finite s m e) /\
   result Memory.virtual_used w = Ret n) \/
  (sensor_float "SFREEMEM" w = Some (S754_finite s m e) /\
   result Memory.virtual_free w = Ret n) ->
  exists k,
    n = cond_Zopp s k /\ 0 <= k /\
    k * 2 ^ Z.max 0 (- e) <= Zpos m * (1024 * 1024) * 2 ^ Z.max 0 e
    < (k + 1) * 2 ^ Z.max 0 (- e).
Proof.
  assert (T := trunc_scaled_bounds s m e (1024 * 1024) ltac:(lia)).
  intros [[F R]|[F R]].
  - rewrite virtual_used_spec, F in R.
    destruct (_ <=? _)%Z; [|discriminate]. injection R as <-. exact T.
  - rewrite virtual_free_spec, F in R.
    destruct (_ <=? _)%Z; [|discriminate]. injection R as <-. exact T.
Qed.

(** ** The storage and network facades *)

(** X19.  The three [Disk] queries never raise and leave the world as it
    is (no acquisition, globals untouched): they hand back what
    [psutil.disk_usage] gives, and NaN, 0 and 0 when it raises. *)
Theorem disk_never_fails (w : World) :
  Disk.disk_usage_percent w =
    (Ret (match disk_usage (psutil w) with
          | Some u => fst (fst u)
          | None => S754_nan
          end), w) /\
  Disk.disk_used w =
    (Ret (match disk_usage (psutil w) with
          | Some u => snd (fst u)
          | None => 0
          end), w) /\
  Disk.disk_free w =
    (Ret (match disk_usage (psutil w) with
          | Some u => snd u
          | None => 0
          end), w).
Proof.
  unfold Disk.disk_usage_percent, Disk.disk_used, Disk.disk_free,
    try_except_all, bind, psutil_disk_usage.
  destruct (disk_usage (psutil w)); repeat split.
Qed.

(** X20.  [Net.stats] never raises, makes no acquisition and ignores its
    interval.  The two rate fields are always 0; the two totals are the
    interface's byte counters, and 0 when [psutil] raises or does not know
    the interface. *)
Theorem net_stats_counters (w : World) (if_name : string)
  (interval interval' : PyFloat.float) :
  Net.stats if_name interval w = Net.stats if_name interval' w /\
  snd (Net.stats if_name interval w) = w /\
  exists sent recv,
    result (Net.stats if_name interval) w = Ret (0, sent, 0, recv) /\
    (forall net_io, net_io_counters (psutil w) = Some net_io ->
       forall st, PyDict.get String.eqb if_name net_io = Some st ->
                  sent = fst st /\ recv = snd st) /\
    (net_io_counters (psutil w) = None -> sent = 0 /\ recv = 0) /\
    (forall net_io, net_io_counters (psutil w) = Some net_io ->
       PyDict.get String.eqb if_name net_io = None -> sent = 0 /\ recv = 0).
Proof.
  split; [reflexivity|].
  unfold result, Net.stats, try_except_all, bind, psutil_net_io_counters.
  destruct (net_io_counters (psutil w)) as [net_io|]; simpl.
  - destruct (PyDict.get String.eqb if_name net_io) as [st|] eqn:G; simpl.
    + split; [reflexivity|]. exists (fst st), (snd st).
      split; [reflexivity|]. split; [|split].
      * intros n [= <-] st' E. rewrite G in E. injection E as <-. auto.
      * discriminate.
      * intros n [= <-] E. rewrite G in E. discriminate.
    + split; [reflexivity|]. exists 0, 0.
      split; [reflexivity|]. split; [|split].
      * intros n [= <-] st' E. rewrite G in E. discriminate.
      * auto.
      * auto.
  - split; [reflexivity|]. exists 0, 0.
    split; [reflexivity|]. split; [|split]; try discriminate. auto.
Qed.

(** ** Exceptions that can leave a facade *)

Lemma core_clocks_raises (items : list (key * SensorRecord))
  (acc : list PyFloat.float) (e : exn) :
  core_clocks items acc = inl e -> e = AttributeError \/ e = TypeError.
Proof.
  revert acc. induction items as [|[k r] items IH]; intro acc; simpl; [discriminate|].
  destruct k as [i|]; simpl; [|intros [= <-]; auto].
  destruct (startswith i "SCC-"); [|apply IH].
  destruct (label r) as [l|]; simpl; [|intros [= <-]; auto].
  destruct (contains "Clock" l); [|apply IH].
  destruct (PyFloat.of_text (value r)) as [e'|x] eqn:F; [|apply IH].
  destruct (of_text_raises _ _ F) as [-> | ->]; apply IH.
Qed.

(** X8.  The only exceptions that can leave a query: [AttributeError] and
    [TypeError] from [Cpu.frequency], [ZeroDivisionError] from [Gpu.stats],
    [OverflowError] from [Memory.virtual_used] and [Memory.virtual_free];
    every other query answers whatever the payload. *)
Theorem facade_exceptions {A} (q : query A) (w : World) (e : exn) :
  result (resolve q) w = Raise e -> In e (may_raise q).
Proof.
  intro H.
  destruct (never_raises q) eqn:G.
  { destruct (guarded_queries_answer q w G) as [v E]. congruence. }
  destruct q; try discriminate; simpl in *.
  - (* Cpu.frequency *)
    unfold result, Cpu.frequency in H. rewrite bind_get_sensor_value in H.
    destruct (negb _); [discriminate|].
    rewrite bind_read in H. unfold bind, lift in H.
    destruct (core_clocks _ _) as [e'|[|x xs]] eqn:C; simpl in H; try discriminate.
    injection H as <-. destruct (core_clocks_raises _ _ _ C); auto.
  - (* Gpu.stats *)
    unfold result, Gpu.stats in H. rewrite !bind_get_sensor_value in H.
    destruct (negb _ && negb _)%bool; [|discriminate].
    unfold bind, lift, PyFloat.div in H.
    destruct (PyFloat.is_zero _); simpl in H; [|discriminate].
    injection H as <-. auto.
  - (* Memory.virtual_used *)
    rewrite virtual_used_spec in H.
    destruct (sensor_float "SUSEDMEM" w) as [[s|s| |s m x]|]; try discriminate.
    + injection H as <-. auto.
    + destruct (_ <=? _)%Z; [discriminate|]. injection H as <-. auto.
  - (* Memory.virtual_free *)
    rewrite virtual_free_spec in H.
    destruct (sensor_float "SFREEMEM" w) as [[s|s| |s m x]|]; try discriminate.
    + injection H as <-. auto.
    + destruct (_ <=? _)%Z; [discriminate|]. injection H as <-. auto.
Qed.

(** ** Sentinels in front of a failing shared memory *)

Lemma sensor_or_nan_fails (w : World) (sensor_id : string) :
  always_fails w -> sensor_or_nan sensor_id w = S754_nan.
Proof.
  intros U. unfold sensor_or_nan. now rewrite (sensor_float_fails w _ U).
Qed.

(** X9.  While the shared memory cannot be read (every acquisition fails,
    whatever the cause of each failure), every number a facade takes from
    it is the sentinel: NaN for the processor and graphics quantities and
    the memory percentages (five NaN for [Gpu.stats], three for the
    fallback of [Cpu.load]), [False] for [Gpu.is_available], 0 for the
    memory byte counts. *)
Theorem failing_memory_sentinels (w : World) :
  always_fails w ->
  (forall interval, result (Cpu.percentage interval) w = Ret S754_nan) /\
  result Cpu.frequency w = Ret S754_nan /\
  result Cpu.temperature w = Ret S754_nan /\
  (forall fan_name, result (Cpu.fan_percent fan_name) w = Ret S754_nan) /\
  result Cpu.voltage w = Ret S754_nan /\
  result Cpu.power w = Ret S754_nan /\
  (getloadavg (psutil w) = None ->
   result Cpu.load w = Ret (S754_nan, S754_nan, S754_nan)) /\
  result Gpu.stats w = Ret (S754_nan, S754_nan, S754_nan, S754_nan, S754_nan) /\
  result Gpu.fan_percent w = Ret S754_nan /\
  result Gpu.voltage w = Ret S754_nan /\
  result Gpu.power w = Ret S754_nan /\
  result Gpu.is_available w = Ret false /\
  result Memory.swap_percent w = Ret S754_nan /\
  result Memory.virtual_percent w = Ret S754_nan /\
  result Memory.virtual_used w = Ret 0 /\
  result Memory.virtual_free w = Ret 0.
Proof.
  intros U.
  assert (U1 := always_fails_read w U).
  assert (U2 := always_fails_read _ U1).
  assert (S0 := fun i => sensor_or_nan_fails w i U).
  assert (S1 := fun i => sensor_or_nan_fails _ i U1).
  assert (S2 := fun i => sensor_or_nan_fails _ i U2).
  assert (G : forall i, result (get_sensor_value i math_nan) w = Ret S754_nan).
  { intro i. unfold result. rewrite get_sensor_value_spec. cbn [fst].
    now rewrite (sensor_float_fails w i U). }
  unfold Cpu.percentage, Cpu.voltage, Cpu.power, Gpu.voltage, Gpu.power,
    Memory.swap_percent, Memory.virtual_percent.
  repeat split; try apply G; unfold result.
  - intros _. apply G.
  - unfold Cpu.frequency. rewrite bind_get_sensor_value_nan, S0.
    change (negb (PyFloat.isnan S754_nan)) with false. cbv iota.
    rewrite bind_read, (table_of_fails _ (U1 _)). reflexivity.
  - unfold Cpu.temperature.
    rewrite bind_get_sensor_value_nan, S0.
    change (negb (PyFloat.isnan S754_nan)) with false. cbv iota.
    rewrite bind_get_sensor_value_nan, S1.
    change (negb (PyFloat.isnan S754_nan)) with false. cbv iota.
    rewrite get_sensor_value_spec. cbn [fst].
    now rewrite (sensor_float_fails _ "TCPU" U2).
  - intro fan_name. unfold Cpu.fan_percent.
    now rewrite bind_get_sensor_value_nan, S0.
  - intro L. fold (result Cpu.load w). rewrite (load_without_getloadavg w L).
    now rewrite S0.
  - unfold Gpu.stats.
    now rewrite !bind_get_sensor_value_nan, S0, S1, S2.
  - unfold Gpu.fan_percent. now rewrite bind_get_sensor_value_nan, S0.
  - unfold Gpu.is_available. now rewrite bind_get_sensor_value_nan, S0.
  - unfold Memory.virtual_used. now rewrite bind_get_sensor_value_nan, S0.
  - unfold Memory.virtual_free. now rewrite bind_get_sensor_value_nan, S0.
Qed.

(** X5.  [get_sensor_value] never raises and costs exactly one cycle.  It
    answers the default when the id is absent, when its value element is
    empty ([TypeError] caught) and when the text is not a float literal
    ([ValueError] caught); otherwise the float read from the text, NaN
    and infinities included. *)
Theorem get_sensor_value_cases (w : World) (sensor_id : string)
  (default_value : PyFloat.float) :
  exists x,
    get_sensor_value sensor_id default_value w
    = (Ret x, snd (read_aida64_shared_memory w)) /\
    match tget (Some sensor_id) (table_of (shm w (clock w))) with
    | None => x = default_value
    | Some r =>
        match value r with
        | None => x = default_value
        | Some t =>
            match PyFloat.of_chars (list_ascii_of_string t) with
            | Some y => x = y
            | None => x = default_value
            end
        end
    end.
Proof.
  rewrite get_sensor_value_spec. eexists. split; [reflexivity|].
  unfold sensor_float.
  destruct (tget (Some sensor_id) (table_of (shm w (clock w)))) as [r|];
    [|reflexivity].
  destruct (value r) as [t|]; simpl; [|reflexivity].
  destruct (PyFloat.of_chars (list_ascii_of_string t)); reflexivity.
Qed.

(** ** Instances of the further properties *)

Lemma unchanged_payload (elems : list Element) :
  unchanged (Mapped (Some (aida64 elems))) (payload elems).
Proof. intro n. reflexivity. Qed.

Lemma parse_sound_witness :
  In "temp" categories.
Proof.
  apply (proj1 (parse_sound (aida64 two_temperatures) (Some "TCPU")
                  {| type := "temp"; label := Some "CPU"; value := Some "55" |}
                  ltac:(simpl; auto))).
Defined.

Lemma parse_reads_valid_records_only_witness :
  parse (aida64 (Elem "note" (Some "x") [Elem "id" (Some "TCPU") []] :: two_temperatures))
  = parse (aida64 two_temperatures).
Proof. apply parse_reads_valid_records_only. reflexivity. Defined.

Lemma temperature_priority_witness :
  result Cpu.temperature (payload two_temperatures) = Ret (PyFloat.of_Z 61).
Proof. exact (temperature_priority _ _ (unchanged_payload two_temperatures)). Defined.

Lemma is_available_matches_stats_witness :
  result Gpu.is_available (payload [sensor "temp" "TGPU1" "GPU" "55"]) = Ret true.
Proof.
  exact (proj1 (is_available_matches_stats _ _
                  (unchanged_payload [sensor "temp" "TGPU1" "GPU" "55"]))).
Defined.

Lemma bytes_are_truncated_witness :
  exists k,
    314572 = cond_Zopp false k /\ 0 <= k /\
    k * 2 ^ Z.max 0 (- -54) <= 5404319552844595 * (1024 * 1024) * 2 ^ Z.max 0 (-54)
    < (k + 1) * 2 ^ Z.max 0 (- -54).
Proof.
  apply (bytes_are_truncated
           (payload [sensor "sys" "SUSEDMEM" "Used Memory" "0.3"])
           false 5404319552844595 (-54) 314572).
  left. split; reflexivity.
Defined.

Lemma facade_exceptions_witness :
  In ZeroDivisionError (may_raise q_gpu_stats).
Proof.
  apply (facade_exceptions q_gpu_stats
           (payload [sensor "sys" "SUSEDVMEM" "Used Video Memory" "0";
                     sensor "sys" "SFREEVMEM" "Free Video Memory" "0"])).
  reflexivity.
Defined.

Lemma failing_memory_sentinels_witness :
  result Cpu.temperature refused_then_unmapped = Ret S754_nan.
Proof.
  apply (failing_memory_sentinels refused_then_unmapped).
  intros [|[|n]]; reflexivity.
Defined.

Lemma frequency_direct_witness :
  result Cpu.frequency (payload [sensor "sys" "SCPUCLK" "CPU Clock" "3400"])
  = Ret (PyFloat.of_Z 3400).
Proof.
  apply (frequency_direct (payload [sensor "sys" "SCPUCLK" "CPU Clock" "3400"])
           (PyFloat.of_Z 3400)); reflexivity.
Defined.

Lemma frequency_fallback_max_witness :
  exists m,
    result Cpu.frequency (payload two_cores) = Ret m /\
    In m [PyFloat.of_Z 3200; PyFloat.of_Z 3600] /\
    forall y, In y [PyFloat.of_Z 3200; PyFloat.of_Z 3600] -> PyFloat.ltb m y = false.
Proof.
  apply (frequency_fallback_max (payload two_cores)).
  - left. reflexivity.
  - intros k r [[= <- <-]|[[= <- <-]|[]]]; split; discriminate.
  - reflexivity.
  - intros y [<-|[<-|[]]]; reflexivity.
Defined.

Lemma gpu_stats_spec_witness :
  result Gpu.stats
    (payload [sensor "sys" "SUSEDVMEM" "Used Video Memory" "1024";
              sensor "sys" "SFREEVMEM" "Free Video Memory" "3072";
              sensor "temp" "TGPU1" "GPU" "55"])
  = Ret (S754_nan, PyFloat.of_Z 25, PyFloat.of_Z 1024, PyFloat.of_Z 4096,
         PyFloat.of_Z 55).
Proof.
  exact (gpu_stats_spec _ _
           (unchanged_payload
              [sensor "sys" "SUSEDVMEM" "Used Video Memory" "1024";
               sensor "sys" "SFREEVMEM" "Free Video Memory" "3072";
               sensor "temp" "TGPU1" "GPU" "55"])).
Defined.
